(** * TurboRally: the lap-time formula and the leaderboard of [turbo_rally.py]

    A shallow embedding of the classes [Vehicle], [Track], [Weather] and
    [Race] of [src/turbo_rally.py], and the properties of the lap-time
    computation and of the leaderboard bookkeeping.

    Numbers.  Python's [float] values are embedded as exact rationals [Q]:
    every literal of the source ([0.7], [0.85], [1.5], ...) is the rational
    it denotes, and [+ - * /] are the exact operations, so rounding and
    overflow of binary64 are outside the model.  Equality of computed
    numbers is [Qeq] ([==]).  An [int] that meets a [float] ([len(...)],
    the [1] of [max], the [0] that [sum] starts from) is the same rational.
    Where a property depends on rounding, overflow or underflow, the module
    [B64] has the same classes over the binary64 numbers of the machine.

    Effects.  [Race._lap_time] reads the process-wide random generator and
    [Race.run] prints and assigns to [self.leaderboard].  Both are threaded
    through a state monad [Py] over a [World] (the generator and the
    standard output); the mutated [Race] object is returned by [run]. *)

From Stdlib Require Import Ascii QArith Qminmax Qabs Lqa Lia.
From Stdlib Require Import Floats.
From stdpp Require Import gmap strings list.

Open Scope Q_scope.

(** ** Python built-ins used by the source *)

(** [dict.get(key, default)] on a dictionary with string keys. *)
Definition dict_get {V : Type} (d : gmap string V) (key : string) (dflt : V) : V :=
  match d !! key with
  | Some v => v
  | None => dflt
  end.

(** [max(a, b)]: the first argument is kept unless the second is strictly
    greater. *)
Definition py_max (a b : Q) : Q :=
  match a ?= b with
  | Lt => b
  | _ => a
  end.

(** [sum(xs)]: a left fold of [+] that starts from [0]. *)
Definition sum (xs : list Q) : Q := fold_left Qplus xs 0.

(** [range(start, stop)] as the list a [for] loop walks through. *)
Definition range (start stop : Z) : list Z :=
  map (fun i => (start + Z.of_nat i)%Z) (seq 0 (Z.to_nat (stop - start))).

(** [len(xs)] as a number that takes part in float arithmetic. *)
Definition len {A : Type} (xs : list A) : Q := inject_Z (Z.of_nat (length xs)).

(** ** The world: random generator and standard output *)

(** What [run] prints; the number is the value handed to the [:.2f] format. *)
Inductive Line : Type :=
  | LapLine (lap : Z) (lap_time : Q)
  | TotalLine (total_time : Q).

(** [random n] is the value of the [n]-th call of [random.random()] of the
    process-wide generator, [drawn] counts the calls made so far. *)
Record World : Type := mkWorld {
  random : nat -> Q;
  drawn : nat;
  stdout : list Line
}.

Definition Py (A : Type) : Type := World -> A * World.

Definition ret {A : Type} (a : A) : Py A := fun w => (a, w).

Definition bind {A B : Type} (m : Py A) (k : A -> Py B) : Py B :=
  fun w => let (a, w') := m w in k a w'.

Notation "'let*' x ':=' m 'in' k" := (bind m (fun x => k))
  (at level 10, x name, m at level 200, k at level 200).

(** [random.random()]: the next value of the generator. *)
Definition random_random : Py Q :=
  fun w => (random w (drawn w), mkWorld (random w) (S (drawn w)) (stdout w)).

(** [random.uniform(a, b)], which is [a + (b - a) * random()]. *)
Definition random_uniform (a b : Q) : Py Q :=
  let* r := random_random in ret (a + (b - a) * r).

Definition print (l : Line) : Py unit :=
  fun w => (tt, mkWorld (random w) (drawn w) (stdout w ++ [l])).

(** ** class Vehicle *)
Module Vehicle.

Record t : Type := mk {
  name : string;
  speed : Q;
  handling : Q;
  acceleration : Q
}.

Definition performance_modifier (self : t) : Q :=
  (handling self + acceleration self) / 2.

End Vehicle.

(** ** class Track *)
Module Track.

Record t : Type := mk {
  name : string;
  terrain : string;
  length_km : Q;
  obstacles : list string
}.

Definition TERRAIN_EFFECT : gmap string Q :=
  <["sand" := 0.8]> (<["gravel" := 0.85]> (<["mud" := 0.7]> ∅)).

Definition terrain_modifier (self : t) : Q :=
  dict_get TERRAIN_EFFECT (terrain self) 1.0.

End Track.

(** ** class Weather *)
Module Weather.

Record t : Type := mk {
  condition : string
}.

Definition WEATHER_EFFECT : gmap string Q :=
  <["storm" := 0.7]> (<["rain" := 0.8]> (<["clear" := 1.0]> ∅)).

Definition traction_modifier (self : t) : Q :=
  dict_get WEATHER_EFFECT (condition self) 1.0.

End Weather.

(** ** class Race *)
Module Race.

Record t : Type := mk {
  track : Track.t;
  weather : Weather.t;
  laps : Z;
  leaderboard : gmap string Q
}.

Definition __init__ (track : Track.t) (weather : Weather.t) (laps : Z) : t :=
  mk track weather laps ∅.

(** [self.leaderboard[key] = value] *)
Definition set_leaderboard (self : t) (key : string) (value : Q) : t :=
  mk (track self) (weather self) (laps self) (<[key := value]> (leaderboard self)).

Definition _lap_time (self : t) (vehicle : Vehicle.t) : Py Q :=
  let base_speed := Vehicle.speed vehicle * Vehicle.performance_modifier vehicle in
  let speed := base_speed * Track.terrain_modifier (track self)
                          * Weather.traction_modifier (weather self) in
  let* u := random_uniform 0.5 1.5 in
  let obstacle_penalty := len (Track.obstacles (track self)) * u in
  let time_hours := Track.length_km (track self) / py_max (speed - obstacle_penalty) 1 in
  ret (time_hours * 60).

(** The body of [for lap in range(1, self.laps + 1)], with the list [times]
    built so far. *)
Fixpoint run_laps (self : t) (vehicle : Vehicle.t) (lap_numbers : list Z)
    (times : list Q) : Py (list Q) :=
  match lap_numbers with
  | [] => ret times
  | lap :: rest =>
      let* lap_time := _lap_time self vehicle in
      let times := times ++ [lap_time] in
      let* _ := print (LapLine lap lap_time) in
      run_laps self vehicle rest times
  end.

(** [run] returns the list [times] and the [Race] object as it is after the
    assignment to its leaderboard. *)
Definition run (self : t) (vehicle : Vehicle.t) : Py (list Q * t) :=
  let* times := run_laps self vehicle (range 1 (laps self + 1)) [] in
  let total_time := sum times in
  let* _ := print (TotalLine total_time) in
  ret (times, set_leaderboard self (Vehicle.name vehicle) total_time).

End Race.

(** ** The scenario of the test suite and of the specification *)

Definition test_vehicle : Vehicle.t := Vehicle.mk "Test Car" 140 0.9 0.8.
Definition test_track : Track.t := Track.mk "Test Track" "gravel" 1.0 [].
Definition clear_race : Race.t := Race.__init__ test_track (Weather.mk "clear") 1.
Definition storm_race : Race.t := Race.__init__ test_track (Weather.mk "storm") 1.

(** ** Notions of the specification *)

(** The lap time as the specification writes it, for the draw [u]. *)
Definition lap_time_formula (vehicle : Vehicle.t) (track : Track.t)
    (weather : Weather.t) (u : Q) : Q :=
  60 * Track.length_km track /
  Qmax (Vehicle.speed vehicle
          * ((Vehicle.handling vehicle + Vehicle.acceleration vehicle) / 2)
          * Track.terrain_modifier track
          * Weather.traction_modifier weather
        - len (Track.obstacles track) * u) 1.

(** The denominator of the lap time when the draw of the generator is [u]. *)
Definition denominator (self : Race.t) (vehicle : Vehicle.t) (u : Q) : Q :=
  py_max (Vehicle.speed vehicle * Vehicle.performance_modifier vehicle
            * Track.terrain_modifier (Race.track self)
            * Weather.traction_modifier (Race.weather self)
          - len (Track.obstacles (Race.track self)) * u) 1.

(** The world after one call of [random.random()]. *)
Definition after_draw (w : World) : World :=
  mkWorld (random w) (S (drawn w)) (stdout w).

(** The value [random.uniform(0.5, 1.5)] returns in the world [w]. *)
Definition next_uniform (w : World) : Q :=
  0.5 + (1.5 - 0.5) * random w (drawn w).

(** The lap time [_lap_time] returns in the world [w]. *)
Definition lap_value (self : Race.t) (vehicle : Vehicle.t) (w : World) : Q :=
  Track.length_km (Race.track self) / denominator self vehicle (next_uniform w) * 60.

(** The world after one round of the loop of [run], for lap number [lap]. *)
Definition after_lap (self : Race.t) (vehicle : Vehicle.t) (lap : Z) (w : World) : World :=
  mkWorld (random w) (S (drawn w)) (stdout w ++ [LapLine lap (lap_value self vehicle w)]).

(** Letter case of ASCII strings. *)
Definition ascii_lower (c : ascii) : ascii :=
  let n := nat_of_ascii c in
  if (65 <=? n)%nat && (n <=? 90)%nat then ascii_of_nat (n + 32) else c.

Fixpoint lower (s : string) : string :=
  match s with
  | EmptyString => EmptyString
  | String c rest => String (ascii_lower c) (lower rest)
  end.

Definition differs_only_in_case (s key : string) : Prop :=
  s ≠ key ∧ lower s = lower key.

(** [x] is [y] when written with three decimals. *)
Definition approx3 (x y : Q) : Prop := Qabs (x - y) <= 0.0005.

(** A sequence of [run] calls on one [Race] object, with the log of the
    calls: the vehicle's name and the list each call returned. *)
Fixpoint run_all (self : Race.t) (vehicles : list Vehicle.t)
    : Py (list (string * list Q) * Race.t) :=
  match vehicles with
  | [] => ret ([], self)
  | v :: rest =>
      let* r := Race.run self v in
      let* rs := run_all (snd r) rest in
      ret ((Vehicle.name v, fst r) :: fst rs, snd rs)
  end.

(** The total of the most recent call for [name] in a log, if there is one. *)
Fixpoint latest_total (name : string) (log : list (string * list Q)) : option Q :=
  match log with
  | [] => None
  | (n, times) :: rest =>
      match latest_total name rest with
      | Some total => Some total
      | None => if decide (n = name) then Some (sum times) else None
      end
  end.

(** ** Default game data *)

Definition default_vehicles : list Vehicle.t :=
  [ Vehicle.mk "Dust Rider" 140 0.9 0.8;
    Vehicle.mk "Mud Crusher" 130 0.95 0.85;
    Vehicle.mk "Gravel Master" 150 0.85 0.9;
    Vehicle.mk "Sand Storm" 145 0.8 0.88;
    Vehicle.mk "Rock Hopper" 135 0.92 0.83 ].

Definition default_tracks : list Track.t :=
  [ Track.mk "Forest Trail" "mud" 5.0 ["log"; "puddle"; "rock"];
    Track.mk "Gravel Pass" "gravel" 4.5 ["rock"; "ditch"];
    Track.mk "Desert Run" "sand" 6.0 ["dune"; "rock"; "cactus"] ].

(** ** The laps of one call of [run] *)

(** The effective speed of a vehicle in a race, before the obstacle
    penalty: the local [speed] of [_lap_time]. *)
Definition effective_speed (self : Race.t) (vehicle : Vehicle.t) : Q :=
  Vehicle.speed vehicle * Vehicle.performance_modifier vehicle
    * Track.terrain_modifier (Race.track self)
    * Weather.traction_modifier (Race.weather self).

(** The obstacle penalty of a lap whose draw is [u]. *)
Definition obstacle_penalty (self : Race.t) (u : Q) : Q :=
  len (Track.obstacles (Race.track self)) * u.

(** The lap time of the lap that reads draw number [drawn w + i] of the
    generator of [w]. *)
Definition nth_lap (self : Race.t) (vehicle : Vehicle.t) (w : World) (i : nat) : Q :=
  lap_value self vehicle (mkWorld (random w) (drawn w + i) (stdout w)).

(** ** The test of [test_race.py] *)

(** [RaceTests.test_race_records_time]: [true] when the three assertions
    hold, [false] when one of them fails or [times[0]] does not exist. *)
Definition test_race_records_time : Py bool :=
  let vehicle := Vehicle.mk "Test Car" 140 0.9 0.8 in
  let track := Track.mk "Test Track" "gravel" 1.0 [] in
  let weather := Weather.mk "clear" in
  let race := Race.__init__ track weather 1 in
  let* r := Race.run race vehicle in
  let times := fst r in
  let race := snd r in
  ret (Nat.eqb (length times) 1
       && match times with
          | t0 :: _ => match 0 ?= t0 with Lt => true | _ => false end
          | [] => false
          end
       && match Race.leaderboard race !! "Test Car" with
          | Some _ => true
          | None => false
          end).

(** ** The interactive part: the selection menus and [main] *)

(** The exceptions that the interactive part raises. *)
Inductive Exn : Type :=
  | ValueError
  | IndexError
  | EOFError.

(** What the terminal shows: a literal line or a prompt, a menu line with
    the values that its f-string formats, a line of [Race.run], or a line of
    the final leaderboard. *)
Inductive Out : Type :=
  | Text (s : string)
  | VehicleItem (idx : Z) (v : Vehicle.t)
  | TrackItem (idx : Z) (t : Track.t)
  | ConditionItem (idx : Z) (c : string)
  | RaceLine (l : Line)
  | LeaderboardItem (name : string) (total : Q).

(** The process as [main] sees it: the random generator (its values and how
    many were read), the lines waiting on standard input, and the screen. *)
Record Terminal : Type := mkTerminal {
  generator : nat -> Q;
  consumed : nat;
  stdin : list string;
  screen : list Out
}.

Definition IO (A : Type) : Type := Terminal -> (Exn + A) * Terminal.

Definition io_ret {A : Type} (a : A) : IO A := fun t => (inr a, t).

Definition raise {A : Type} (e : Exn) : IO A := fun t => (inl e, t).

Definition io_bind {A B : Type} (m : IO A) (k : A -> IO B) : IO B :=
  fun t =>
    match m t with
    | (inl e, t') => (inl e, t')
    | (inr a, t') => k a t'
    end.

Notation "'let!' x ':=' m 'in' k" := (io_bind m (fun x => k))
  (at level 10, x name, m at level 200, k at level 200).

(** A computation of [Race], run on the generator of the terminal; what it
    prints goes to the screen. *)
Definition lift {A : Type} (m : Py A) : IO A :=
  fun t =>
    let (a, w) := m (mkWorld (generator t) (consumed t) []) in
    (inr a, mkTerminal (random w) (drawn w) (stdin t)
              (screen t ++ map RaceLine (stdout w))).

Definition show (o : Out) : IO unit :=
  fun t => (inr tt, mkTerminal (generator t) (consumed t) (stdin t) (screen t ++ [o])).

(** [input(prompt)]: shows the prompt and takes the next line of standard
    input; [EOFError] when there is none. *)
Definition input (prompt : string) : IO string :=
  fun t =>
    let shown := screen t ++ [Text prompt] in
    match stdin t with
    | [] => (inl EOFError, mkTerminal (generator t) (consumed t) [] shown)
    | line :: rest => (inr line, mkTerminal (generator t) (consumed t) rest shown)
    end.

(** [xs[i]] for a Python integer [i]: a negative index counts from the end,
    an index outside the list raises [IndexError]. *)
Definition getitem {A : Type} (xs : list A) (i : Z) : IO A :=
  let n := Z.of_nat (length xs) in
  let j := if (i <? 0)%Z then (i + n)%Z else i in
  if (0 <=? j)%Z && (j <? n)%Z then
    match xs !! Z.to_nat j with
    | Some x => io_ret x
    | None => raise IndexError
    end
  else raise IndexError.

(** [for idx, x in enumerate(xs, start=idx): print(...)] *)
Fixpoint show_enumerated {A : Type} (item : Z -> A -> Out) (xs : list A) (idx : Z)
    : IO unit :=
  match xs with
  | [] => io_ret tt
  | x :: rest =>
      let! _ := show (item idx x) in
      show_enumerated item rest (idx + 1)
  end.

(** [for x in xs: print(...)] *)
Fixpoint show_each {A : Type} (item : A -> Out) (xs : list A) : IO unit :=
  match xs with
  | [] => io_ret tt
  | x :: rest =>
      let! _ := show (item x) in
      show_each item rest
  end.

(** [sorted(items, key=lambda x: x[1])]: a stable sort by ascending total;
    an item goes behind the items before it that are not greater. *)
Fixpoint insert_by_total (x : string * Q) (sorted : list (string * Q))
    : list (string * Q) :=
  match sorted with
  | [] => [x]
  | y :: rest =>
      match snd x ?= snd y with
      | Lt => x :: y :: rest
      | _ => y :: insert_by_total x rest
      end
  end.

Definition sorted_by_total (items : list (string * Q)) : list (string * Q) :=
  fold_left (fun sorted x => insert_by_total x sorted) items [].

Section Interactive.

(** [int(s)] on a string, the built-in of Python: [None] stands for
    [ValueError]. *)
Variable int : string -> option Z.

Definition int_of_input (s : string) : IO Z :=
  match int s with
  | Some n => io_ret n
  | None => raise ValueError
  end.

Definition choose_vehicle (vehicles : list Vehicle.t) : IO Vehicle.t :=
  let! _ := show (Text "Select your vehicle:") in
  let! _ := show_enumerated VehicleItem vehicles 1 in
  let! line := input "Enter number: " in
  let! choice := int_of_input line in
  getitem vehicles (choice - 1).

Definition choose_track (tracks : list Track.t) : IO Track.t :=
  let! _ := show (Text "Select a track:") in
  let! _ := show_enumerated TrackItem tracks 1 in
  let! line := input "Enter number: " in
  let! choice := int_of_input line in
  getitem tracks (choice - 1).

Definition choose_weather : IO Weather.t :=
  let conditions := ["clear"; "rain"; "storm"] in
  let! _ := show (Text "Select weather condition:") in
  let! _ := show_enumerated ConditionItem conditions 1 in
  let! line := input "Enter number: " in
  let! choice := int_of_input line in
  let! condition := getitem conditions (choice - 1) in
  io_ret (Weather.mk condition).

(** [main].  The dictionary [race.leaderboard] holds one entry when its
    items are listed, so the order of [items()] is the order of
    [map_to_list]. *)
Definition main : IO unit :=
  let vehicles := default_vehicles in
  let tracks := default_tracks in
  let! vehicle := choose_vehicle vehicles in
  let! track := choose_track tracks in
  let! weather := choose_weather in
  let! line := input "Number of laps: " in
  let! laps := int_of_input line in
  let race := Race.__init__ track weather laps in
  let! r := lift (Race.run race vehicle) in
  let race := snd r in
  let! _ := show (Text "Leaderboard:") in
  show_each (fun item => LeaderboardItem (fst item) (snd item))
    (sorted_by_total (map_to_list (Race.leaderboard race))).

End Interactive.

(** ** Notions for the interactive part *)

(** The numbered lines of a menu, numbered from 1. *)
Definition menu {A : Type} (item : Z -> A -> Out) (xs : list A) : list Out :=
  zip_with item (map Z.of_nat (seq 1 (length xs))) xs.

(** What a selection menu adds to the screen: its header, its numbered
    lines and the prompt. *)
Definition menu_screen {A : Type} (header : string) (item : Z -> A -> Out)
    (xs : list A) : list Out :=
  Text header :: menu item xs ++ [Text "Enter number: "].

(** The terminal after a menu was shown and one line was taken from the
    lines [rest] that follow it. *)
Definition after_menu {A : Type} (header : string) (item : Z -> A -> Out)
    (xs : list A) (rest : list string) (t : Terminal) : Terminal :=
  mkTerminal (generator t) (consumed t) rest (screen t ++ menu_screen header item xs).

(** The common shape of the three selection functions. *)
Definition pick {A : Type} (int : string -> option Z) (header : string)
    (item : Z -> A -> Out) (xs : list A) : IO A :=
  let! _ := show (Text header) in
  let! _ := show_enumerated item xs 1 in
  let! line := input "Enter number: " in
  let! choice := int_of_input int line in
  getitem xs (choice - 1).

(** The lines that show a result of the race: those of [Race.run] and those
    of the final leaderboard. *)
Definition shows_result (o : Out) : Prop :=
  match o with
  | RaceLine _ | LeaderboardItem _ _ => True
  | _ => False
  end.

(** A reading of plain decimal numerals, with an optional minus sign: one
    function that [int] may be, for the examples. *)
Fixpoint digits (s : string) (acc : Z) : option Z :=
  match s with
  | EmptyString => Some acc
  | String c rest =>
      let n := nat_of_ascii c in
      if (48 <=? n)%nat && (n <=? 57)%nat
      then digits rest (10 * acc + Z.of_nat (n - 48))%Z
      else None
  end.

Definition decimal_int (s : string) : option Z :=
  match s with
  | EmptyString => None
  | String "-" EmptyString => None
  | String "-" rest => option_map Z.opp (digits rest 0)
  | _ => digits s 0
  end.

(** ** The arithmetic of the program in binary64

    The classes once more, with Python's [float] as the binary64 numbers of
    the machine ([PrimFloat.float]): every operation rounds to nearest, a
    result can overflow to [infinity], underflow to [0] or be [nan], and a
    literal such as [0.85] is the binary64 number nearest to it.  An [int]
    that meets a [float] (a speed such as [140], [len(...)], the [1] of
    [max], the [0] that [sum] starts from) is the float of the same value.
    Division by zero raises [ZeroDivisionError], which is the [None] of
    [Py]. *)
Module B64.

Set Warnings "-inexact-float".
Local Open Scope float_scope.

(** [x / y] of two floats. *)
Definition truediv (x y : float) : option float :=
  if y =? 0 then None else Some (x / y).

(** [max(a, 1)]: [a] is kept unless [1 > a]. *)
Definition py_max_1 (a : float) : float :=
  if a <? 1 then 1 else a.

(** [sum(xs)]. *)
Definition sum (xs : list float) : float := fold_left PrimFloat.add xs 0.

(** [len(xs)] as the float that multiplies a float. *)
Definition len {A : Type} (xs : list A) : float :=
  of_uint63 (Uint63.of_Z (Z.of_nat (length xs))).

Inductive Line : Type :=
  | LapLine (lap : Z) (lap_time : float)
  | TotalLine (total_time : float).

Record World : Type := mkWorld {
  random : nat -> float;
  drawn : nat;
  stdout : list Line
}.

Definition Py (A : Type) : Type := World -> option (A * World).

Definition ret {A : Type} (a : A) : Py A := fun w => Some (a, w).

Definition bind {A B : Type} (m : Py A) (k : A -> Py B) : Py B :=
  fun w =>
    match m w with
    | Some (a, w') => k a w'
    | None => None
    end.

Notation "'let+' x ':=' m 'in' k" := (bind m (fun x => k))
  (at level 10, x name, m at level 200, k at level 200).

Definition lift_option {A : Type} (o : option A) : Py A :=
  fun w =>
    match o with
    | Some a => Some (a, w)
    | None => None
    end.

Definition random_random : Py float :=
  fun w => Some (random w (drawn w), mkWorld (random w) (S (drawn w)) (stdout w)).

Definition random_uniform (a b : float) : Py float :=
  let+ r := random_random in ret (a + (b - a) * r).

Definition print (l : Line) : Py unit :=
  fun w => Some (tt, mkWorld (random w) (drawn w) (stdout w ++ [l])).

Module Vehicle.

Record t : Type := mk {
  name : string;
  speed : float;
  handling : float;
  acceleration : float
}.

(** The divisor is the literal [2]: this division cannot raise. *)
Definition performance_modifier (self : t) : float :=
  (handling self + acceleration self) / 2.

End Vehicle.

Module Track.

Record t : Type := mk {
  name : string;
  terrain : string;
  length_km : float;
  obstacles : list string
}.

Definition TERRAIN_EFFECT : gmap string float :=
  <["sand" := 0.8]> (<["gravel" := 0.85]> (<["mud" := 0.7]> ∅)).

Definition terrain_modifier (self : t) : float :=
  dict_get TERRAIN_EFFECT (terrain self) 1.0.

End Track.

Module Weather.

Record t : Type := mk {
  condition : string
}.

Definition WEATHER_EFFECT : gmap string float :=
  <["storm" := 0.7]> (<["rain" := 0.8]> (<["clear" := 1.0]> ∅)).

Definition traction_modifier (self : t) : float :=
  dict_get WEATHER_EFFECT (condition self) 1.0.

End Weather.

Module Race.

Record t : Type := mk {
  track : Track.t;
  weather : Weather.t;
  laps : Z;
  leaderboard : gmap string float
}.

Definition __init__ (track : Track.t) (weather : Weather.t) (laps : Z) : t :=
  mk track weather laps ∅.

Definition set_leaderboard (self : t) (key : string) (value : float) : t :=
  mk (track self) (weather self) (laps self) (<[key := value]> (leaderboard self)).

Definition _lap_time (self : t) (vehicle : Vehicle.t) : Py float :=
  let base_speed := Vehicle.speed vehicle * Vehicle.performance_modifier vehicle in
  let speed := base_speed * Track.terrain_modifier (track self)
                          * Weather.traction_modifier (weather self) in
  let+ u := random_uniform 0.5 1.5 in
  let obstacle_penalty := len (Track.obstacles (track self)) * u in
  let+ time_hours :=
    lift_option (truediv (Track.length_km (track self))
                   (py_max_1 (speed - obstacle_penalty))) in
  ret (time_hours * 60).

Fixpoint run_laps (self : t) (vehicle : Vehicle.t) (lap_numbers : list Z)
    (times : list float) : Py (list float) :=
  match lap_numbers with
  | [] => ret times
  | lap :: rest =>
      let+ lap_time := _lap_time self vehicle in
      let times := times ++ [lap_time] in
      let+ _ := print (LapLine lap lap_time) in
      run_laps self vehicle rest times
  end.

Definition run (self : t) (vehicle : Vehicle.t) : Py (list float * t) :=
  let+ times := run_laps self vehicle (range 1 (laps self + 1)) [] in
  let total_time := sum times in
  let+ _ := print (TotalLine total_time) in
  ret (times, set_leaderboard self (Vehicle.name vehicle) total_time).

End Race.

(** The scenario of the test suite. *)
Definition test_vehicle : Vehicle.t := Vehicle.mk "Test Car" 140 0.9 0.8.
Definition test_track : Track.t := Track.mk "Test Track" "gravel" 1.0 [].
Definition clear_race : Race.t := Race.__init__ test_track (Weather.mk "clear") 1.

(** The value [random.uniform(0.5, 1.5)] returns for the draw number [i]
    after the world [w]. *)
Definition uniform_at (w : World) (i : nat) : float :=
  0.5 + (1.5 - 0.5) * random w (drawn w + i).

(** The denominator of the lap whose draw is [u]. *)
Definition denominator (self : Race.t) (vehicle : Vehicle.t) (u : float) : float :=
  py_max_1 (Vehicle.speed vehicle * Vehicle.performance_modifier vehicle
              * Track.terrain_modifier (Race.track self)
              * Weather.traction_modifier (Race.weather self)
            - len (Track.obstacles (Race.track self)) * u).

(** The lap time of the lap whose draw is [u], when the division is done. *)
Definition lap_of (self : Race.t) (vehicle : Vehicle.t) (u : float) : float :=
  Track.length_km (Race.track self) / denominator self vehicle u * 60.

(** The value of the expression the specification gives for the scenario. *)
Definition scenario_expression : float :=
  (1.0 / (140 * 0.85 * 0.85 * 1.0)) * 60.



End B64.

(** * Properties *)

(** ** The lookup tables *)

Lemma py_max_Qmax (a b : Q) : py_max a b = Qmax a b.
Proof. reflexivity. Qed.

Lemma terrain_unknown (tr : Track.t) :
  Track.terrain tr ≠ "mud" -> Track.terrain tr ≠ "gravel" ->
  Track.terrain tr ≠ "sand" -> Track.terrain_modifier tr = 1.0.
Proof.
  intros Hm Hg Hs. unfold Track.terrain_modifier, dict_get, Track.TERRAIN_EFFECT.
  rewrite !lookup_insert_ne by congruence. by rewrite lookup_empty.
Qed.

Lemma weather_unknown (we : Weather.t) :
  Weather.condition we ≠ "clear" -> Weather.condition we ≠ "rain" ->
  Weather.condition we ≠ "storm" -> Weather.traction_modifier we = 1.0.
Proof.
  intros Hc Hr Hs. unfold Weather.traction_modifier, dict_get, Weather.WEATHER_EFFECT.
  rewrite !lookup_insert_ne by congruence. by rewrite lookup_empty.
Qed.

(** C6. For every track, [terrain_modifier] is 0.7 on "mud", 0.85 on
    "gravel", 0.8 on "sand" and 1.0 on every other terrain string; the
    lookup has a result for every string. *)
Theorem terrain_modifier_table (tr : Track.t) :
  Track.terrain_modifier tr =
    if decide (Track.terrain tr = "mud") then 0.7
    else if decide (Track.terrain tr = "gravel") then 0.85
    else if decide (Track.terrain tr = "sand") then 0.8
    else 1.0.
Proof.
  destruct tr as [nm te km obs]; simpl.
  repeat case_decide; subst; try reflexivity.
  by apply terrain_unknown.
Qed.

(** C7. For every weather, [traction_modifier] is 1.0 on "clear", 0.8 on
    "rain", 0.7 on "storm" and 1.0 on every other condition string. *)
Theorem traction_modifier_table (we : Weather.t) :
  Weather.traction_modifier we =
    if decide (Weather.condition we = "clear") then 1.0
    else if decide (Weather.condition we = "rain") then 0.8
    else if decide (Weather.condition we = "storm") then 0.7
    else 1.0.
Proof.
  destruct we as [co]; simpl.
  repeat case_decide; subst; try reflexivity.
  by apply weather_unknown.
Qed.

(** C10. The lookups are case-sensitive: a terrain that differs from a key
    of the terrain table only in letter case gets the neutral 1.0, and so
    does a condition that differs from a key of the weather table only in
    letter case. *)
Theorem lookups_case_sensitive :
  (forall (tr : Track.t) (key : string),
      In key ["mud"; "gravel"; "sand"] ->
      differs_only_in_case (Track.terrain tr) key ->
      Track.terrain_modifier tr = 1.0) /\
  (forall (we : Weather.t) (key : string),
      In key ["clear"; "rain"; "storm"] ->
      differs_only_in_case (Weather.condition we) key ->
      Weather.traction_modifier we = 1.0).
Proof.
  split.
  - intros tr key Hkey [Hne Hlow].
    apply terrain_unknown; intros Heq; rewrite Heq in Hne, Hlow;
      simpl in Hkey; destruct Hkey as [<-|[<-|[<-|[]]]];
      solve [ by apply Hne | discriminate Hlow ].
  - intros we key Hkey [Hne Hlow].
    apply weather_unknown; intros Heq; rewrite Heq in Hne, Hlow;
      simpl in Hkey; destruct Hkey as [<-|[<-|[<-|[]]]];
      solve [ by apply Hne | discriminate Hlow ].
Qed.

Lemma lookups_case_sensitive_witness :
  Track.terrain_modifier (Track.mk "Forest Trail" "Mud" 5.0 ["log"]) = 1.0 /\
  Weather.traction_modifier (Weather.mk "Rain") = 1.0.
Proof.
  split.
  - apply (proj1 lookups_case_sensitive _ "mud").
    + simpl; auto.
    + split; [discriminate | reflexivity].
  - apply (proj2 lookups_case_sensitive _ "rain").
    + simpl; auto.
    + split; [discriminate | reflexivity].
Defined.

(** ** One lap *)

Lemma random_uniform_run (w : World) :
  random_uniform 0.5 1.5 w = (next_uniform w, after_draw w).
Proof. reflexivity. Qed.

(** The draws lie in the range of [uniform(0.5, 1.5)] when the generator
    yields values of [[0, 1)]. *)
Lemma next_uniform_range (w : World) :
  0 <= random w (drawn w) < 1 -> 0.5 <= next_uniform w < 1.5.
Proof. unfold next_uniform. intros [Hlo Hhi]. split; lra. Qed.

Lemma lap_time_run (self : Race.t) (vehicle : Vehicle.t) (w : World) :
  Race._lap_time self vehicle w =
    (lap_value self vehicle w, after_draw w).
Proof. reflexivity. Qed.

Lemma denominator_ge_1 (self : Race.t) (vehicle : Vehicle.t) (u : Q) :
  1 <= denominator self vehicle u.
Proof. unfold denominator. rewrite py_max_Qmax. apply Q.le_max_r. Qed.

Lemma denominator_no_obstacles (self : Race.t) (vehicle : Vehicle.t) (u : Q) :
  Track.obstacles (Race.track self) = [] ->
  denominator self vehicle u ==
    Qmax (Vehicle.speed vehicle * Vehicle.performance_modifier vehicle
            * Track.terrain_modifier (Race.track self)
            * Weather.traction_modifier (Race.weather self)) 1.
Proof.
  intros Hobs. unfold denominator. rewrite Hobs, py_max_Qmax.
  apply Q.max_compat; [ | reflexivity ].
  unfold len; simpl. ring.
Qed.

(** C1. The lap-time computation returns
    [60 * length_km / max(speed * ((handling + acceleration) / 2)
       * terrain_modifier * traction_modifier - count(obstacles) * u, 1)]
    for the value [u] that one call of [uniform(0.5, 1.5)] returns, and the
    generator is read exactly once per computation, whatever the number of
    obstacles: the world afterwards is the world after that single call. *)
Theorem lap_time_is_formula (self : Race.t) (vehicle : Vehicle.t) (w : World) :
  let (u, w_drawn) := random_uniform 0.5 1.5 w in
  let (lap_time, w') := Race._lap_time self vehicle w in
  lap_time == lap_time_formula vehicle (Race.track self) (Race.weather self) u /\
  w' = w_drawn /\
  drawn w' = S (drawn w) /\ random w' = random w /\ stdout w' = stdout w.
Proof.
  rewrite random_uniform_run, lap_time_run.
  split; [ | by repeat split ].
  unfold lap_value, lap_time_formula, denominator, Vehicle.performance_modifier.
  rewrite py_max_Qmax. unfold Qdiv. ring.
Qed.

(** C9. On a track without obstacles the lap time does not depend on the
    random source: two computations, with any two generators and draw
    values, return equal results. *)
Theorem lap_time_independent_of_draw (self : Race.t) (vehicle : Vehicle.t)
    (w1 w2 : World) :
  Track.obstacles (Race.track self) = [] ->
  fst (Race._lap_time self vehicle w1) == fst (Race._lap_time self vehicle w2).
Proof.
  intros Hobs. rewrite !lap_time_run; unfold lap_value; simpl.
  rewrite !(denominator_no_obstacles _ _ _ Hobs). reflexivity.
Qed.

Lemma lap_time_independent_of_draw_witness :
  fst (Race._lap_time clear_race test_vehicle (mkWorld (fun _ => 0) 0 [])) ==
  fst (Race._lap_time clear_race test_vehicle (mkWorld (fun _ => 0.99) 7 [])).
Proof.
  apply (lap_time_independent_of_draw clear_race test_vehicle). reflexivity.
Defined.

(** ** The scenario: one lap on the obstacle-free gravel track *)

Lemma clear_lap_time (w : World) :
  fst (Race._lap_time clear_race test_vehicle w) ==
    (1.0 / (140 * 0.85 * 0.85 * 1.0)) * 60.
Proof.
  rewrite lap_time_run; unfold lap_value; simpl.
  rewrite (denominator_no_obstacles clear_race test_vehicle _ eq_refl).
  reflexivity.
Qed.

Lemma storm_lap_time (w : World) :
  fst (Race._lap_time storm_race test_vehicle w) ==
    (1.0 / (140 * 0.85 * 0.85 * 0.7)) * 60.
Proof.
  rewrite lap_time_run; unfold lap_value; simpl.
  rewrite (denominator_no_obstacles storm_race test_vehicle _ eq_refl).
  reflexivity.
Qed.

(** C8. For the scenario's vehicle and track the lap time under
    Weather("storm") is strictly larger than the lap time under
    Weather("clear"), whatever the generator yields in either computation. *)
Theorem storm_slower_than_clear (w_clear w_storm : World) :
  fst (Race._lap_time clear_race test_vehicle w_clear) <
  fst (Race._lap_time storm_race test_vehicle w_storm).
Proof.
  rewrite clear_lap_time, storm_lap_time. reflexivity.
Qed.

(** ** The loop of [run] *)

Lemma run_laps_nil (self : Race.t) (vehicle : Vehicle.t) (times : list Q) (w : World) :
  Race.run_laps self vehicle [] times w = (times, w).
Proof. reflexivity. Qed.

Lemma run_laps_cons (self : Race.t) (vehicle : Vehicle.t) (lap : Z)
    (rest : list Z) (times : list Q) (w : World) :
  Race.run_laps self vehicle (lap :: rest) times w =
    Race.run_laps self vehicle rest (times ++ [lap_value self vehicle w])
      (after_lap self vehicle lap w).
Proof. reflexivity. Qed.

Lemma run_laps_length (self : Race.t) (vehicle : Vehicle.t) (lap_numbers : list Z) :
  forall (times : list Q) (w : World),
    length (fst (Race.run_laps self vehicle lap_numbers times w)) =
      (length times + length lap_numbers)%nat.
Proof.
  induction lap_numbers as [ | lap rest IH ]; intros times w.
  - rewrite run_laps_nil; simpl. lia.
  - rewrite run_laps_cons, IH, length_app; simpl. lia.
Qed.

Lemma run_laps_drawn (self : Race.t) (vehicle : Vehicle.t) (lap_numbers : list Z) :
  forall (times : list Q) (w : World),
    drawn (snd (Race.run_laps self vehicle lap_numbers times w)) =
      (drawn w + length lap_numbers)%nat.
Proof.
  induction lap_numbers as [ | lap rest IH ]; intros times w.
  - rewrite run_laps_nil; simpl. lia.
  - rewrite run_laps_cons, IH; simpl. lia.
Qed.

Lemma run_laps_Forall (P : Q -> Prop) (self : Race.t) (vehicle : Vehicle.t) :
  (forall w : World, P (lap_value self vehicle w)) ->
  forall (lap_numbers : list Z) (times : list Q) (w : World),
    Forall P times ->
    Forall P (fst (Race.run_laps self vehicle lap_numbers times w)).
Proof.
  intros HP lap_numbers.
  induction lap_numbers as [ | lap rest IH ]; intros times w Htimes.
  - by rewrite run_laps_nil.
  - rewrite run_laps_cons. apply IH.
    apply Forall_app; split; [ done | ]. by repeat constructor.
Qed.

Lemma range_length (start stop : Z) :
  length (range start stop) = Z.to_nat (stop - start).
Proof. unfold range. by rewrite length_map, length_seq. Qed.

Lemma lap_value_positive (self : Race.t) (vehicle : Vehicle.t) (w : World) :
  0 < Track.length_km (Race.track self) -> 0 < lap_value self vehicle w.
Proof.
  intros Hkm. unfold lap_value.
  pose proof (denominator_ge_1 self vehicle (next_uniform w)) as Hden.
  apply Qmult_lt_0_compat; [ | reflexivity ].
  apply Qlt_shift_div_l; lra.
Qed.

(** What [run] returns, and the world it leaves, in terms of its loop. *)
Lemma run_unfold (self : Race.t) (vehicle : Vehicle.t) (w : World) :
  Race.run self vehicle w =
    let loop := Race.run_laps self vehicle (range 1 (Race.laps self + 1)) [] w in
    ((fst loop, Race.set_leaderboard self (Vehicle.name vehicle) (sum (fst loop))),
     mkWorld (random (snd loop)) (drawn (snd loop))
       (stdout (snd loop) ++ [TotalLine (sum (fst loop))])).
Proof.
  unfold Race.run, bind.
  by destruct (Race.run_laps self vehicle (range 1 (Race.laps self + 1)) [] w).
Qed.

(** [run] reads the generator once per lap. *)
Lemma run_draws (self : Race.t) (vehicle : Vehicle.t) (w : World) :
  drawn (snd (Race.run self vehicle w)) = (drawn w + Z.to_nat (Race.laps self))%nat.
Proof.
  rewrite run_unfold; cbn [fst snd drawn].
  rewrite run_laps_drawn, range_length. f_equal. f_equal. lia.
Qed.

(** ** What [run] returns *)

(** C3 as stated fails: with [laps = 0] the call still assigns to the
    leaderboard, so the mapping is not what it was before the call. *)
Lemma run_zero_laps_not_untouched :
  ~ (fst (fst (Race.run (Race.__init__ test_track (Weather.mk "clear") 0)
                 test_vehicle (mkWorld (fun _ => 0) 0 []))) = [] /\
     Race.leaderboard
       (snd (fst (Race.run (Race.__init__ test_track (Weather.mk "clear") 0)
                    test_vehicle (mkWorld (fun _ => 0) 0 [])))) =
     Race.leaderboard (Race.__init__ test_track (Weather.mk "clear") 0)).
Proof.
  intros [_ Hlb].
  apply (f_equal (fun lb : gmap string Q => lb !! "Test Car")) in Hlb.
  vm_compute in Hlb. discriminate Hlb.
Qed.

(** C3, amended. With [laps = 0], [run] returns the empty sequence and
    assigns 0, the sum of no lap times, to the leaderboard entry of the
    vehicle's name; the entries of all other names are unchanged. *)
Theorem run_zero_laps (self : Race.t) (vehicle : Vehicle.t) (w : World) :
  Race.laps self = 0%Z ->
  fst (fst (Race.run self vehicle w)) = [] /\
  Race.leaderboard (snd (fst (Race.run self vehicle w))) !! Vehicle.name vehicle
    = Some 0 /\
  (forall name : string, name ≠ Vehicle.name vehicle ->
     Race.leaderboard (snd (fst (Race.run self vehicle w))) !! name
       = Race.leaderboard self !! name).
Proof.
  intros Hlaps. rewrite run_unfold, Hlaps; cbn.
  repeat split.
  - apply lookup_insert_eq.
  - intros name Hne. by apply lookup_insert_ne.
Qed.

Lemma run_zero_laps_witness :
  Race.leaderboard
    (snd (fst (Race.run (Race.__init__ test_track (Weather.mk "clear") 0)
                 test_vehicle (mkWorld (fun _ => 0) 0 [])))) !! "Test Car"
    = Some 0.
Proof.
  apply (run_zero_laps (Race.__init__ test_track (Weather.mk "clear") 0)
           test_vehicle (mkWorld (fun _ => 0) 0 [])).
  reflexivity.
Defined.

(** C2 as stated fails: the lap time of the scenario is not 0.499 when
    written with three decimals. *)
Lemma scenario_lap_time_not_0499 :
  ~ (exists lap_time total : Q,
       fst (fst (Race.run clear_race test_vehicle (mkWorld (fun _ => 0) 0 [])))
         = [lap_time] /\
       lap_time == (1.0 / (140 * 0.85 * 0.85 * 1.0)) * 60 /\
       approx3 lap_time 0.499 /\
       Race.leaderboard
         (snd (fst (Race.run clear_race test_vehicle (mkWorld (fun _ => 0) 0 []))))
         !! "Test Car" = Some total /\
       total == lap_time).
Proof.
  intros (lap_time & total & Htimes & Hval & Happrox & _).
  unfold approx3 in Happrox. apply Qabs_Qle_condition in Happrox.
  assert (Hnum : (1.0 / (140 * 0.85 * 0.85 * 1.0)) * 60 == 1200 # 2023) by reflexivity.
  rewrite Hnum in Hval. destruct Happrox as [_ Hhi]. lra.
Qed.

(** ** The leaderboard over a sequence of calls *)

Lemma run_leaderboard (self : Race.t) (vehicle : Vehicle.t) (w : World) :
  Race.leaderboard (snd (fst (Race.run self vehicle w))) =
    <[Vehicle.name vehicle := sum (fst (fst (Race.run self vehicle w)))]>
      (Race.leaderboard self).
Proof. by rewrite run_unfold. Qed.

Lemma run_all_cons (self : Race.t) (v : Vehicle.t) (rest : list Vehicle.t) (w : World) :
  run_all self (v :: rest) w =
    let first := Race.run self v w in
    let others := run_all (snd (fst first)) rest (snd first) in
    (((Vehicle.name v, fst (fst first)) :: fst (fst others), snd (fst others)),
     snd others).
Proof.
  cbn [run_all]. unfold bind.
  destruct (Race.run self v w) as [[times self'] w']; cbn [fst snd].
  by destruct (run_all self' rest w') as [[log self''] w''].
Qed.

Lemma run_all_names (vehicles : list Vehicle.t) :
  forall (self : Race.t) (w : World),
    map fst (fst (fst (run_all self vehicles w))) = map Vehicle.name vehicles.
Proof.
  induction vehicles as [ | v rest IH ]; intros self w.
  - reflexivity.
  - rewrite run_all_cons; cbn. by rewrite IH.
Qed.

(** After a sequence of calls an entry holds the total of the latest call
    for its name, and what it held before where there was no such call. *)
Lemma run_all_leaderboard (vehicles : list Vehicle.t) :
  forall (self : Race.t) (w : World) (name : string),
    Race.leaderboard (snd (fst (run_all self vehicles w))) !! name =
      match latest_total name (fst (fst (run_all self vehicles w))) with
      | Some total => Some total
      | None => Race.leaderboard self !! name
      end.
Proof.
  induction vehicles as [ | v rest IH ]; intros self w name.
  - reflexivity.
  - rewrite run_all_cons; cbn [fst snd latest_total].
    rewrite IH.
    destruct (latest_total name _) as [total | ]; [ reflexivity | ].
    rewrite run_leaderboard. case_decide as Hname.
    + rewrite Hname. apply lookup_insert_eq.
    + by apply lookup_insert_ne.
Qed.

Lemma latest_total_is_Some (name : string) (log : list (string * list Q)) :
  is_Some (latest_total name log) <-> name ∈ map fst log.
Proof.
  induction log as [ | [n times] rest IH ]; simpl.
  - split; [ by intros [? ?] | by intros ?%elem_of_nil ].
  - rewrite elem_of_cons, <- IH.
    destruct (latest_total name rest) as [total | ].
    + split; [ intros _; right | ]; eauto.
    + case_decide as Hname; split.
      * by left.
      * eauto.
      * by intros [? ?].
      * intros [-> | [? ?]]; [ congruence | done ].
Qed.

(** C5. After any sequence of [run] calls on a [Race] object, the keys of
    its leaderboard are exactly the names of the vehicles [run] was called
    for, and each key maps to the total, the sum of the lap times, of the
    most recent call for that name; in particular after two calls for the
    same vehicle the entry of its name is the total of the second call. *)
Theorem leaderboard_invariant :
  (forall (track : Track.t) (weather : Weather.t) (laps : Z)
          (vehicles : list Vehicle.t) (w : World),
     let calls := run_all (Race.__init__ track weather laps) vehicles w in
     map fst (fst (fst calls)) = map Vehicle.name vehicles /\
     dom (Race.leaderboard (snd (fst calls))) =
       (list_to_set (map Vehicle.name vehicles) : gset string) /\
     (forall name : string,
        Race.leaderboard (snd (fst calls)) !! name =
          latest_total name (fst (fst calls)))) /\
  (forall (self : Race.t) (vehicle : Vehicle.t) (w : World),
     let first := Race.run self vehicle w in
     let second := Race.run (snd (fst first)) vehicle (snd first) in
     Race.leaderboard (snd (fst second)) !! Vehicle.name vehicle =
       Some (sum (fst (fst second)))).
Proof.
  split.
  - intros track weather laps vehicles w calls.
    assert (Hlookup : forall name : string,
               Race.leaderboard (snd (fst calls)) !! name =
                 latest_total name (fst (fst calls))).
    { intros name. unfold calls. rewrite run_all_leaderboard.
      destruct (latest_total name _); [ reflexivity | ]. apply lookup_empty. }
    split; [ apply run_all_names | ]. split; [ | exact Hlookup ].
    apply set_eq. intros name.
    rewrite elem_of_dom, Hlookup, latest_total_is_Some, elem_of_list_to_set.
    unfold calls. by rewrite run_all_names.
  - intros self vehicle w first second.
    unfold second. rewrite run_leaderboard. apply lookup_insert_eq.
Qed.

(** * Further properties of the code *)

(** ** The laps of [run], one by one *)

Lemma lap_value_ext (self : Race.t) (vehicle : Vehicle.t) (w1 w2 : World) :
  random w1 = random w2 -> drawn w1 = drawn w2 ->
  lap_value self vehicle w1 = lap_value self vehicle w2.
Proof.
  intros Hrandom Hdrawn. unfold lap_value, next_uniform.
  by rewrite Hrandom, Hdrawn.
Qed.

Lemma nth_lap_0 (self : Race.t) (vehicle : Vehicle.t) (w : World) :
  nth_lap self vehicle w 0 = lap_value self vehicle w.
Proof. apply lap_value_ext; simpl; [ done | lia ]. Qed.

Lemma nth_lap_after_lap (self : Race.t) (vehicle : Vehicle.t) (lap : Z)
    (w : World) (i : nat) :
  nth_lap self vehicle (after_lap self vehicle lap w) i = nth_lap self vehicle w (S i).
Proof. apply lap_value_ext; simpl; [ done | lia ]. Qed.

(** The loop of [run]: the list it builds, the generator it leaves and the
    lines it prints. *)
Lemma run_laps_spec (self : Race.t) (vehicle : Vehicle.t) (lap_numbers : list Z) :
  forall (times : list Q) (w : World),
    let laps := map (nth_lap self vehicle w) (seq 0 (length lap_numbers)) in
    fst (Race.run_laps self vehicle lap_numbers times w) = times ++ laps /\
    random (snd (Race.run_laps self vehicle lap_numbers times w)) = random w /\
    stdout (snd (Race.run_laps self vehicle lap_numbers times w)) =
      stdout w ++ zip_with LapLine lap_numbers laps.
Proof.
  induction lap_numbers as [ | lap rest IH ]; intros times w.
  - simpl. by rewrite !app_nil_r.
  - rewrite run_laps_cons.
    destruct (IH (times ++ [lap_value self vehicle w]) (after_lap self vehicle lap w))
      as (Htimes & Hrandom & Hout).
    cbn [length seq map zip_with]. rewrite <- seq_shift, map_map.
    rewrite (map_ext _ _ (nth_lap_after_lap self vehicle lap w)) in Htimes, Hout.
    rewrite nth_lap_0. split; [ | split ].
    + by rewrite Htimes, <- app_assoc.
    + by rewrite Hrandom.
    + rewrite Hout; simpl. by rewrite <- app_assoc.
Qed.

(** X1. [run] prints one line per lap, numbered 1, 2, ... in lap order and
    carrying the lap times in the order of the returned list, then one line
    with their sum, and nothing else. *)
Theorem run_output (self : Race.t) (vehicle : Vehicle.t) (w : World) :
  let times := fst (fst (Race.run self vehicle w)) in
  stdout (snd (Race.run self vehicle w)) =
    stdout w
      ++ zip_with LapLine (map Z.of_nat (seq 1 (length times))) times
      ++ [TotalLine (sum times)].
Proof.
  rewrite run_unfold; cbn [fst snd stdout].
  destruct (run_laps_spec self vehicle (range 1 (Race.laps self + 1)) [] w)
    as (Htimes & _ & Hout).
  rewrite Hout, Htimes; simpl. rewrite <- app_assoc. do 2 f_equal.
  rewrite length_map, length_seq, range_length. f_equal.
  unfold range. rewrite <- seq_shift, map_map. apply map_ext. intros i. lia.
Qed.

(** X2. The [i]-th lap time [run] returns is computed from the [i]-th value
    that the generator yields after the call starts: every lap has a draw
    of its own, [run] reads the generator once per lap and not otherwise,
    and it leaves the sequence of values to come as it was. *)
Theorem run_one_draw_per_lap (self : Race.t) (vehicle : Vehicle.t) (w : World) :
  fst (fst (Race.run self vehicle w)) =
    map (nth_lap self vehicle w) (seq 0 (Z.to_nat (Race.laps self))) /\
  drawn (snd (Race.run self vehicle w)) = (drawn w + Z.to_nat (Race.laps self))%nat /\
  random (snd (Race.run self vehicle w)) = random w.
Proof.
  split; [ | split; [ apply run_draws | ] ].
  - rewrite run_unfold; cbn [fst].
    destruct (run_laps_spec self vehicle (range 1 (Race.laps self + 1)) [] w)
      as (Htimes & _ & _).
    rewrite Htimes, range_length; simpl. do 2 f_equal. lia.
  - rewrite run_unfold; cbn [snd random].
    by destruct (run_laps_spec self vehicle (range 1 (Race.laps self + 1)) [] w)
      as (_ & Hrandom & _).
Qed.

(** X3. A lap count that is zero or negative is not rejected: [run]
    returns the empty list, does not read the generator, prints only the
    total line with 0, and records 0 for the vehicle. *)
Theorem run_nonpositive_laps (self : Race.t) (vehicle : Vehicle.t) (w : World) :
  (Race.laps self <= 0)%Z ->
  Race.run self vehicle w =
    (([], Race.set_leaderboard self (Vehicle.name vehicle) 0),
     mkWorld (random w) (drawn w) (stdout w ++ [TotalLine 0])).
Proof.
  intros Hlaps. rewrite run_unfold. unfold range.
  replace (Z.to_nat (Race.laps self + 1 - 1)) with 0%nat by lia.
  reflexivity.
Qed.

Lemma run_nonpositive_laps_witness :
  Race.run (Race.__init__ test_track (Weather.mk "rain") (-3)) test_vehicle
           (mkWorld (fun _ => 0.25) 4 []) =
    (([], Race.set_leaderboard (Race.__init__ test_track (Weather.mk "rain") (-3))
            "Test Car" 0),
     mkWorld (fun _ => 0.25) 4 [TotalLine 0]).
Proof.
  apply (run_nonpositive_laps (Race.__init__ test_track (Weather.mk "rain") (-3))
           test_vehicle (mkWorld (fun _ => 0.25) 4 [])).
  simpl. lia.
Defined.

(** ** The lap time as a number *)

Lemma len_nonneg {A : Type} (xs : list A) : 0 <= len xs.
Proof.
  unfold len. change 0 with (inject_Z 0). rewrite <- Zle_Qle. lia.
Qed.

Lemma len_le {A B : Type} (xs : list A) (ys : list B) :
  (length xs <= length ys)%nat -> len xs <= len ys.
Proof. intros Hle. unfold len. rewrite <- Zle_Qle. lia. Qed.

Lemma lap_time_split (self : Race.t) (vehicle : Vehicle.t) (w : World) :
  fst (Race._lap_time self vehicle w) =
    Track.length_km (Race.track self)
      / Qmax (effective_speed self vehicle - obstacle_penalty self (next_uniform w)) 1
      * 60.
Proof. reflexivity. Qed.

Lemma quotient_antitone (km d1 d2 : Q) :
  0 <= km -> 1 <= d2 -> d2 <= d1 -> km / d1 * 60 <= km / d2 * 60.
Proof.
  intros Hkm Hd2 Hd.
  assert (H1 : km / d1 * d1 == km) by (field; lra).
  assert (H2 : km / d2 * d2 == km) by (field; lra).
  assert (0 <= km / d1) by (apply Qle_shift_div_l; lra).
  assert (0 <= km / d2) by (apply Qle_shift_div_l; lra).
  nra.
Qed.

(** X4. The two regimes of the floor.  While the effective speed less the
    obstacle penalty is at least 1, the lap time is the track length over
    that difference, in minutes; once the difference is 1 or less (also when
    it is negative) the lap time is 60 minutes per kilometre, whatever the
    vehicle, the weather and the draw. *)
Theorem lap_time_floor_regimes (self : Race.t) (vehicle : Vehicle.t) (w : World) :
  let gap := effective_speed self vehicle
             - obstacle_penalty self (fst (random_uniform 0.5 1.5 w)) in
  (1 <= gap ->
     fst (Race._lap_time self vehicle w) == Track.length_km (Race.track self) / gap * 60) /\
  (gap <= 1 ->
     fst (Race._lap_time self vehicle w) == Track.length_km (Race.track self) * 60).
Proof.
  rewrite random_uniform_run; cbn [fst]. rewrite lap_time_split.
  split; intros Hgap.
  - by rewrite (Q.max_l _ _ Hgap).
  - rewrite (Q.max_r _ _ Hgap). field.
Qed.

Lemma lap_time_floor_regimes_witness :
  fst (Race._lap_time clear_race test_vehicle (mkWorld (fun _ => 0.5) 0 [])) ==
    1.0 / (140 * ((0.9 + 0.8) / 2) * 0.85 * 1.0 - 0 * (0.5 + (1.5 - 0.5) * 0.5)) * 60 /\
  fst (Race._lap_time
         (Race.__init__ (Track.mk "Forest Trail" "mud" 5.0 ["log"; "puddle"; "rock"])
            (Weather.mk "storm") 1)
         (Vehicle.mk "Cart" 4 0.5 0.5) (mkWorld (fun _ => 0.5) 0 [])) == 5.0 * 60.
Proof.
  split.
  - apply (proj1 (lap_time_floor_regimes clear_race test_vehicle
                    (mkWorld (fun _ => 0.5) 0 []))).
    vm_compute. discriminate.
  - apply (proj2 (lap_time_floor_regimes
                    (Race.__init__ (Track.mk "Forest Trail" "mud" 5.0 ["log"; "puddle"; "rock"])
                       (Weather.mk "storm") 1)
                    (Vehicle.mk "Cart" 4 0.5 0.5) (mkWorld (fun _ => 0.5) 0 []))).
    vm_compute. discriminate.
Defined.

(** X6. A larger draw of the generator never gives a shorter lap: on a
    track of non-negative length the lap time is monotone in the value of
    [random.random()] it reads. *)
Theorem lap_time_monotone_in_draw (self : Race.t) (vehicle : Vehicle.t) (w1 w2 : World) :
  0 <= Track.length_km (Race.track self) ->
  random w1 (drawn w1) <= random w2 (drawn w2) ->
  fst (Race._lap_time self vehicle w1) <= fst (Race._lap_time self vehicle w2).
Proof.
  intros Hkm Hdraw. rewrite !lap_time_split.
  apply quotient_antitone; [ done | apply Q.le_max_r | ].
  apply Q.max_le_compat_r. unfold obstacle_penalty, next_uniform.
  pose proof (len_nonneg (Track.obstacles (Race.track self))) as Hlen. nra.
Qed.

Lemma lap_time_monotone_in_draw_witness :
  fst (Race._lap_time
         (Race.__init__ (Track.mk "Gravel Pass" "gravel" 4.5 ["rock"; "ditch"])
            (Weather.mk "rain") 2)
         test_vehicle (mkWorld (fun _ => 0.1) 0 [])) <=
  fst (Race._lap_time
         (Race.__init__ (Track.mk "Gravel Pass" "gravel" 4.5 ["rock"; "ditch"])
            (Weather.mk "rain") 2)
         test_vehicle (mkWorld (fun _ => 0.9) 3 [])).
Proof.
  apply (lap_time_monotone_in_draw
           (Race.__init__ (Track.mk "Gravel Pass" "gravel" 4.5 ["rock"; "ditch"])
              (Weather.mk "rain") 2)
           test_vehicle (mkWorld (fun _ => 0.1) 0 []) (mkWorld (fun _ => 0.9) 3 [])).
  - vm_compute. discriminate.
  - vm_compute. discriminate.
Defined.

(** X7. Only the number of obstacles matters, and more obstacles never
    give a shorter lap: for two tracks that differ in their obstacle lists
    only, the same draw (from a generator that yields non-negative values)
    gives the track with at least as many obstacles at least the lap time
    of the other. *)
Theorem lap_time_monotone_in_obstacles (name terrain : string) (km : Q)
    (obstacles1 obstacles2 : list string) (weather : Weather.t) (laps : Z)
    (vehicle : Vehicle.t) (w : World) :
  0 <= km ->
  0 <= random w (drawn w) ->
  (length obstacles1 <= length obstacles2)%nat ->
  fst (Race._lap_time (Race.__init__ (Track.mk name terrain km obstacles1) weather laps)
         vehicle w) <=
  fst (Race._lap_time (Race.__init__ (Track.mk name terrain km obstacles2) weather laps)
         vehicle w).
Proof.
  intros Hkm Hdraw Hcount. rewrite !lap_time_split; cbn [Race.track Race.__init__ Track.length_km].
  apply quotient_antitone; [ done | apply Q.le_max_r | ].
  apply Q.max_le_compat_r.
  unfold effective_speed, obstacle_penalty, next_uniform; cbn.
  pose proof (len_le _ _ Hcount) as Hlen.
  pose proof (len_nonneg obstacles1) as Hlen1.
  unfold Track.terrain_modifier; cbn. nra.
Qed.

Lemma lap_time_monotone_in_obstacles_witness :
  fst (Race._lap_time (Race.__init__ (Track.mk "Desert Run" "sand" 6.0 ["dune"])
                         (Weather.mk "clear") 1)
         test_vehicle (mkWorld (fun _ => 0.5) 0 [])) <=
  fst (Race._lap_time (Race.__init__ (Track.mk "Desert Run" "sand" 6.0 ["dune"; "rock"; "cactus"])
                         (Weather.mk "clear") 1)
         test_vehicle (mkWorld (fun _ => 0.5) 0 [])).
Proof.
  apply (lap_time_monotone_in_obstacles "Desert Run" "sand" 6.0 ["dune"]
           ["dune"; "rock"; "cactus"] (Weather.mk "clear") 1 test_vehicle
           (mkWorld (fun _ => 0.5) 0 [])).
  - vm_compute. discriminate.
  - vm_compute. discriminate.
  - simpl. lia.
Defined.

(** ** The modifiers *)

Lemma terrain_modifier_cases (tr : Track.t) :
  Track.terrain_modifier tr = 0.7 \/ Track.terrain_modifier tr = 0.85 \/
  Track.terrain_modifier tr = 0.8 \/ Track.terrain_modifier tr = 1.0.
Proof.
  destruct tr as [nm te km obs].
  destruct (decide (te = "mud")) as [-> | Hm]; [ by left | ].
  destruct (decide (te = "gravel")) as [-> | Hg]; [ by right; left | ].
  destruct (decide (te = "sand")) as [-> | Hs]; [ by right; right; left | ].
  right; right; right. by apply terrain_unknown.
Qed.

Lemma traction_modifier_cases (we : Weather.t) :
  Weather.traction_modifier we = 1.0 \/ Weather.traction_modifier we = 0.8 \/
  Weather.traction_modifier we = 0.7.
Proof.
  destruct we as [co].
  destruct (decide (co = "clear")) as [-> | Hc]; [ by left | ].
  destruct (decide (co = "rain")) as [-> | Hr]; [ by right; left | ].
  destruct (decide (co = "storm")) as [-> | Hs]; [ by right; right | ].
  left. by apply weather_unknown.
Qed.

Lemma terrain_modifier_range (tr : Track.t) : 0.7 <= Track.terrain_modifier tr <= 1.
Proof.
  destruct (terrain_modifier_cases tr) as [-> | [-> | [-> | ->]]]; split; by vm_compute.
Qed.

Lemma traction_modifier_range (we : Weather.t) : 0.7 <= Weather.traction_modifier we <= 1.
Proof.
  destruct (traction_modifier_cases we) as [-> | [-> | ->]]; split; by vm_compute.
Qed.

Lemma effective_speed_bounds (self : Race.t) (vehicle : Vehicle.t) :
  0 <= Vehicle.speed vehicle * Vehicle.performance_modifier vehicle ->
  0.49 * (Vehicle.speed vehicle * Vehicle.performance_modifier vehicle)
    <= effective_speed self vehicle
    <= Vehicle.speed vehicle * Vehicle.performance_modifier vehicle.
Proof.
  intros Hbase. unfold effective_speed.
  pose proof (terrain_modifier_range (Race.track self)) as Hterrain.
  pose proof (traction_modifier_range (Race.weather self)) as Hweather.
  set (base := Vehicle.speed vehicle * Vehicle.performance_modifier vehicle) in *.
  set (tm := Track.terrain_modifier (Race.track self)) in *.
  set (wm := Weather.traction_modifier (Race.weather self)) in *.
  assert (0 <= base * tm) by nra.
  assert (base * tm <= base) by nra.
  assert (0.7 * base <= base * tm) by nra.
  split; nra.
Qed.

(** X9. Terrain and weather never speed a vehicle up: both modifiers lie
    between 0.7 and 1 for every terrain and condition string, so for a
    vehicle of non-negative base speed the effective speed is not negative
    and not above the base speed. *)
Theorem modifiers_only_slow_down (self : Race.t) (vehicle : Vehicle.t) :
  0.7 <= Track.terrain_modifier (Race.track self) <= 1 /\
  0.7 <= Weather.traction_modifier (Race.weather self) <= 1 /\
  (0 <= Vehicle.speed vehicle * Vehicle.performance_modifier vehicle ->
   0 <= effective_speed self vehicle
     <= Vehicle.speed vehicle * Vehicle.performance_modifier vehicle).
Proof.
  split; [ apply terrain_modifier_range | ].
  split; [ apply traction_modifier_range | ].
  intros Hbase. pose proof (effective_speed_bounds self vehicle Hbase) as [Hlo Hhi].
  split; lra.
Qed.

Lemma modifiers_only_slow_down_witness :
  0 <= effective_speed storm_race test_vehicle
    <= Vehicle.speed test_vehicle * Vehicle.performance_modifier test_vehicle.
Proof.
  apply (modifiers_only_slow_down storm_race test_vehicle).
  vm_compute. discriminate.
Defined.

(** ** The default game data *)

Lemma default_vehicle_base_speed (vehicle : Vehicle.t) :
  In vehicle default_vehicles ->
  117 <= Vehicle.speed vehicle * Vehicle.performance_modifier vehicle.
Proof.
  intros Hin. simpl in Hin.
  destruct Hin as [<- | [<- | [<- | [<- | [<- | []]]]]]; by vm_compute.
Qed.

Lemma default_track_obstacles (track : Track.t) :
  In track default_tracks -> len (Track.obstacles track) <= 3.
Proof.
  intros Hin. simpl in Hin.
  destruct Hin as [<- | [<- | [<- | []]]]; by vm_compute.
Qed.

(** X10. With the default game data the floor of 1 is never reached: for
    every default vehicle on every default track, under any weather and for
    every value in [[0, 1]] that the generator may yield, the effective speed
    less the obstacle penalty exceeds 52, and the lap time is the track
    length over that difference, in minutes. *)
Theorem default_data_never_floored (vehicle : Vehicle.t) (track : Track.t)
    (weather : Weather.t) (laps : Z) (w : World) :
  In vehicle default_vehicles ->
  In track default_tracks ->
  0 <= random w (drawn w) <= 1 ->
  let self := Race.__init__ track weather laps in
  let gap := effective_speed self vehicle
             - obstacle_penalty self (fst (random_uniform 0.5 1.5 w)) in
  52 < gap /\
  fst (Race._lap_time self vehicle w) == Track.length_km track / gap * 60.
Proof.
  intros Hvehicle Htrack [Hlo Hhi] self gap.
  assert (Hgap : 52 < gap).
  { unfold gap. rewrite random_uniform_run; cbn [fst].
    pose proof (default_vehicle_base_speed vehicle Hvehicle) as Hbase.
    assert (Hbase0 : 0 <= Vehicle.speed vehicle * Vehicle.performance_modifier vehicle)
      by lra.
    pose proof (effective_speed_bounds self vehicle Hbase0) as [Hspeed _].
    pose proof (default_track_obstacles track Htrack) as Hcount.
    pose proof (len_nonneg (Track.obstacles track)) as Hcount0.
    unfold obstacle_penalty, next_uniform; cbn [Race.track self Race.__init__].
    nra. }
  split; [ exact Hgap | ].
  rewrite lap_time_split. unfold gap. rewrite random_uniform_run; cbn [fst].
  rewrite Q.max_l; [ reflexivity | ].
  unfold gap in Hgap. rewrite random_uniform_run in Hgap; cbn [fst] in Hgap. lra.
Qed.

Lemma default_data_never_floored_witness :
  52 < effective_speed
         (Race.__init__ (Track.mk "Forest Trail" "mud" 5.0 ["log"; "puddle"; "rock"])
            (Weather.mk "storm") 3)
         (Vehicle.mk "Mud Crusher" 130 0.95 0.85)
       - obstacle_penalty
           (Race.__init__ (Track.mk "Forest Trail" "mud" 5.0 ["log"; "puddle"; "rock"])
              (Weather.mk "storm") 3)
           (fst (random_uniform 0.5 1.5 (mkWorld (fun _ => 1) 0 []))).
Proof.
  apply (default_data_never_floored (Vehicle.mk "Mud Crusher" 130 0.95 0.85)
           (Track.mk "Forest Trail" "mud" 5.0 ["log"; "puddle"; "rock"])
           (Weather.mk "storm") 3 (mkWorld (fun _ => 1) 0 [])).
  - simpl. auto.
  - simpl. auto.
  - split; vm_compute; discriminate.
Defined.

(** ** The test suite *)

(** X11. The test [test_race_records_time] passes whatever the random
    generator yields: the race returns one lap time, the lap time is
    positive, and "Test Car" is on the leaderboard. *)
Theorem test_race_records_time_passes (w : World) :
  fst (test_race_records_time w) = true.
Proof.
  unfold test_race_records_time, bind. rewrite run_unfold.
  change (range 1 (Race.laps (Race.__init__ (Track.mk "Test Track" "gravel" 1.0 [])
                                (Weather.mk "clear") 1) + 1)) with [1%Z].
  rewrite run_laps_cons, run_laps_nil. cbn [fst snd ret app length Nat.eqb andb].
  rewrite (proj1 (Qlt_alt _ _)).
  - unfold Race.set_leaderboard; cbn [Race.leaderboard Vehicle.name].
    by rewrite lookup_insert_eq.
  - by apply lap_value_positive.
Qed.

(** ** Names on the leaderboard *)

Lemma run_all_dom (vehicles : list Vehicle.t) (self : Race.t) (w : World) :
  dom (Race.leaderboard (snd (fst (run_all self vehicles w)))) =
    dom (Race.leaderboard self) ∪ list_to_set (map Vehicle.name vehicles).
Proof.
  apply set_eq. intros name.
  rewrite elem_of_union, !elem_of_dom, run_all_leaderboard, elem_of_list_to_set.
  rewrite <- (run_all_names vehicles self w), <- latest_total_is_Some.
  destruct (latest_total name _) as [total | ].
  - split; [ right | ]; eauto.
  - split; [ by left | ]. intros [? | [? ?]]; done.
Qed.

Lemma size_names (names : list string) :
  (size (list_to_set names : gset string) <= length names)%nat /\
  (size (list_to_set names : gset string) = length names <-> NoDup names).
Proof.
  induction names as [ | name rest [IHle IHeq] ].
  - split; [ done | ]. split; [ constructor | done ].
  - rewrite list_to_set_cons; cbn [length].
    destruct (decide (name ∈ rest)) as [Hin | Hnotin].
    + rewrite (subseteq_union_1_L (C := gset string) {[name]} (list_to_set rest))
        by (by apply singleton_subseteq_l, elem_of_list_to_set).
      split; [ lia | ]. split; [ lia | ].
      intros Hnodup. apply NoDup_cons in Hnodup as [Hnotin _]. done.
    + rewrite size_union
        by (by apply disjoint_singleton_l; rewrite elem_of_list_to_set).
      rewrite size_singleton.
      split; [ lia | ]. rewrite NoDup_cons. split.
      * intros Hsize. split; [ done | ]. apply IHeq. lia.
      * intros [_ Hnodup]. apply IHeq in Hnodup. lia.
Qed.

(** X12. The leaderboard is keyed by the vehicle's name alone: after a
    sequence of [run] calls on a new [Race] it has at most one entry per
    call, and exactly one entry per call if and only if the vehicles' names
    are pairwise distinct; vehicles that share a name share one entry. *)
Theorem leaderboard_size (track : Track.t) (weather : Weather.t) (laps : Z)
    (vehicles : list Vehicle.t) (w : World) :
  let leaderboard :=
    Race.leaderboard (snd (fst (run_all (Race.__init__ track weather laps) vehicles w))) in
  (size leaderboard <= length vehicles)%nat /\
  (size leaderboard = length vehicles <-> NoDup (map Vehicle.name vehicles)).
Proof.
  intros leaderboard.
  assert (Hsize : size leaderboard =
                    size (list_to_set (map Vehicle.name vehicles) : gset string)).
  { unfold leaderboard. rewrite <- size_dom, run_all_dom.
    cbn [Race.__init__ Race.leaderboard]. rewrite dom_empty_L.
    by rewrite (left_id_L ∅ (∪)). }
  rewrite Hsize, <- (length_map Vehicle.name vehicles).
  apply size_names.
Qed.

Lemma leaderboard_size_witness :
  size (Race.leaderboard
          (snd (fst (run_all (Race.__init__ test_track (Weather.mk "rain") 2)
                       default_vehicles (mkWorld (fun _ => 0.5) 0 []))))) = 5%nat.
Proof.
  apply (proj2 (leaderboard_size test_track (Weather.mk "rain") 2 default_vehicles
                  (mkWorld (fun _ => 0.5) 0 []))).
  apply (bool_decide_unpack _). vm_compute. exact I.
Defined.

(** X13. [run] changes nothing of a race but the entry of the vehicle it
    is called for: after any sequence of calls, on a race in any state, the
    track, the weather and the lap count are what they were, and so is the
    entry of every name that no call was made for. *)
Theorem run_all_frame (vehicles : list Vehicle.t) :
  forall (self : Race.t) (w : World),
    let self' := snd (fst (run_all self vehicles w)) in
    Race.track self' = Race.track self /\
    Race.weather self' = Race.weather self /\
    Race.laps self' = Race.laps self /\
    (forall name : string,
       name ∉ map Vehicle.name vehicles ->
       Race.leaderboard self' !! name = Race.leaderboard self !! name).
Proof.
  induction vehicles as [ | v rest IH ]; intros self w.
  - by repeat split.
  - cbn zeta. rewrite run_all_cons; cbn [fst snd map].
    destruct (IH (snd (fst (Race.run self v w))) (snd (Race.run self v w)))
      as (Htrack & Hweather & Hlaps & Hentries).
    split; [ rewrite Htrack; by rewrite run_unfold | ].
    split; [ rewrite Hweather; by rewrite run_unfold | ].
    split; [ rewrite Hlaps; by rewrite run_unfold | ].
    intros name Hname. apply not_elem_of_cons in Hname as [Hne Hrest].
    rewrite (Hentries name Hrest), run_leaderboard.
    by apply lookup_insert_ne.
Qed.

Lemma run_all_frame_witness :
  Race.leaderboard
    (snd (fst (run_all
                 (Race.set_leaderboard
                    (Race.__init__ test_track (Weather.mk "rain") 2) "Old Timer" 12.5)
                 default_vehicles (mkWorld (fun _ => 0.5) 0 []))))
    !! "Old Timer" = Some 12.5.
Proof.
  rewrite (proj2 (proj2 (proj2 (run_all_frame default_vehicles
             (Race.set_leaderboard
                (Race.__init__ test_track (Weather.mk "rain") 2) "Old Timer" 12.5)
             (mkWorld (fun _ => 0.5) 0 [])))) "Old Timer").
  - reflexivity.
  - apply (bool_decide_unpack _). vm_compute. exact I.
Defined.

(** ** The selection menus *)

Lemma io_bind_run {A B : Type} (m : IO A) (k : A -> IO B) (t : Terminal) :
  io_bind m k t =
    match fst (m t) with
    | inl e => (inl e, snd (m t))
    | inr a => k a (snd (m t))
    end.
Proof. unfold io_bind. by destruct (m t) as [[e | a] t']. Qed.

Lemma show_enumerated_run {A : Type} (item : Z -> A -> Out) (xs : list A) :
  forall (idx : Z) (t : Terminal),
    show_enumerated item xs idx t =
      (inr tt,
       mkTerminal (generator t) (consumed t) (stdin t)
         (screen t ++ zip_with item (map (fun i => (idx + Z.of_nat i)%Z)
                                       (seq 0 (length xs))) xs)).
Proof.
  induction xs as [ | x rest IH ]; intros idx t.
  - destruct t; simpl. by rewrite app_nil_r.
  - cbn [show_enumerated]. unfold io_bind, show at 1. rewrite IH.
    cbn [generator consumed stdin screen length seq map zip_with].
    rewrite <- app_assoc, <- seq_shift, map_map, Z.add_0_r. do 5 f_equal.
    apply map_ext. intros i. lia.
Qed.

Lemma getitem_terminal {A : Type} (xs : list A) (i : Z) (t : Terminal) :
  snd (getitem xs i t) = t.
Proof.
  unfold getitem. destruct (_ && _); [ | done ]. by destruct (xs !! _).
Qed.

Lemma getitem_In {A : Type} (xs : list A) (i : Z) (t : Terminal) (x : A) :
  fst (getitem xs i t) = inr x -> In x xs.
Proof.
  unfold getitem. destruct (_ && _); [ | done ].
  destruct (xs !! _) as [y | ] eqn:Hy; [ | done ].
  intros [= <-]. apply list_elem_of_In. by eapply list_elem_of_lookup_2.
Qed.

Lemma getitem_inside {A : Type} (xs : list A) (i : Z) (t : Terminal) (x : A) :
  (0 <= i)%Z -> xs !! Z.to_nat i = Some x -> getitem xs i t = (inr x, t).
Proof.
  intros Hi Hx. pose proof (lookup_lt_Some _ _ _ Hx) as Hlt. unfold getitem.
  replace (i <? 0)%Z with false by lia.
  replace ((0 <=? i)%Z && (i <? Z.of_nat (length xs))%Z) with true by lia.
  by rewrite Hx.
Qed.

Lemma getitem_from_end {A : Type} (xs : list A) (i : Z) (t : Terminal) (x : A) :
  (- Z.of_nat (length xs) <= i < 0)%Z ->
  xs !! Z.to_nat (Z.of_nat (length xs) + i) = Some x ->
  getitem xs i t = (inr x, t).
Proof.
  intros Hi Hx. unfold getitem.
  replace (i <? 0)%Z with true by lia.
  replace ((0 <=? i + Z.of_nat (length xs))%Z
           && (i + Z.of_nat (length xs) <? Z.of_nat (length xs))%Z) with true by lia.
  by rewrite Z.add_comm, Hx.
Qed.

Lemma getitem_outside {A : Type} (xs : list A) (i : Z) (t : Terminal) :
  (Z.of_nat (length xs) <= i \/ i < - Z.of_nat (length xs))%Z ->
  getitem xs i t = (inl IndexError, t).
Proof.
  intros Hi. unfold getitem.
  destruct (i <? 0)%Z eqn:Hneg.
  - replace ((0 <=? i + Z.of_nat (length xs))%Z
             && (i + Z.of_nat (length xs) <? Z.of_nat (length xs))%Z) with false by lia.
    done.
  - replace ((0 <=? i)%Z && (i <? Z.of_nat (length xs))%Z) with false by lia.
    done.
Qed.

(** A selection shows its menu and the prompt, takes one line, and hands
    the number read from it, less one, to the indexing of the list. *)
Lemma pick_run {A : Type} (int : string -> option Z) (header : string)
    (item : Z -> A -> Out) (xs : list A) (t : Terminal) :
  pick int header item xs t =
    match stdin t with
    | [] => (inl EOFError, after_menu header item xs [] t)
    | line :: rest =>
        match int line with
        | None => (inl ValueError, after_menu header item xs rest t)
        | Some choice => getitem xs (choice - 1) (after_menu header item xs rest t)
        end
    end.
Proof.
  unfold pick, io_bind, show at 1. rewrite show_enumerated_run.
  unfold input, int_of_input, after_menu, menu_screen, menu, io_ret, raise.
  cbn [generator consumed stdin screen].
  replace (map (fun i : nat => (1 + Z.of_nat i)%Z) (seq 0 (length xs)))
    with (map Z.of_nat (seq 1 (length xs)))
    by (rewrite <- seq_shift, map_map; apply map_ext; intros i; lia).
  rewrite <- !app_assoc. cbn [app].
  destruct (stdin t) as [ | line rest ]; [ done | ].
  by destruct (int line).
Qed.

Lemma choose_vehicle_pick (int : string -> option Z) (vehicles : list Vehicle.t) :
  choose_vehicle int vehicles = pick int "Select your vehicle:" VehicleItem vehicles.
Proof. reflexivity. Qed.

Lemma choose_track_pick (int : string -> option Z) (tracks : list Track.t) :
  choose_track int tracks = pick int "Select a track:" TrackItem tracks.
Proof. reflexivity. Qed.

Lemma choose_weather_pick (int : string -> option Z) (t : Terminal) :
  choose_weather int t =
    match pick int "Select weather condition:" ConditionItem
            ["clear"; "rain"; "storm"] t with
    | (inl e, t') => (inl e, t')
    | (inr condition, t') => (inr (Weather.mk condition), t')
    end.
Proof.
  unfold choose_weather, pick, io_bind.
  destruct (show _ t) as [[e | []] t1]; [ done | ].
  destruct (show_enumerated _ _ _ t1) as [[e | []] t2]; [ done | ].
  destruct (input _ t2) as [[e | line] t3]; [ done | ].
  destruct (int_of_input int line t3) as [[e | choice] t4]; [ done | ].
  by destruct (getitem _ _ t4) as [[e | condition] t5].
Qed.

Lemma pick_valid {A : Type} (int : string -> option Z) (header : string)
    (item : Z -> A -> Out) (xs : list A) (t : Terminal)
    (line : string) (rest : list string) (k : Z) (x : A) :
  stdin t = line :: rest -> int line = Some k -> (1 <= k)%Z ->
  xs !! Z.to_nat (k - 1) = Some x ->
  pick int header item xs t = (inr x, after_menu header item xs rest t).
Proof.
  intros Hstdin Hint Hk Hx. rewrite pick_run, Hstdin, Hint.
  apply getitem_inside; [ lia | done ].
Qed.

Lemma pick_from_end {A : Type} (int : string -> option Z) (header : string)
    (item : Z -> A -> Out) (xs : list A) (t : Terminal)
    (line : string) (rest : list string) (k : Z) (x : A) :
  stdin t = line :: rest -> int line = Some k ->
  (- Z.of_nat (length xs) < k <= 0)%Z ->
  xs !! Z.to_nat (Z.of_nat (length xs) + k - 1) = Some x ->
  pick int header item xs t = (inr x, after_menu header item xs rest t).
Proof.
  intros Hstdin Hint Hk Hx. rewrite pick_run, Hstdin, Hint.
  apply getitem_from_end; [ lia | ].
  by replace (Z.of_nat (length xs) + (k - 1))%Z with (Z.of_nat (length xs) + k - 1)%Z
    by lia.
Qed.

Lemma pick_outside {A : Type} (int : string -> option Z) (header : string)
    (item : Z -> A -> Out) (xs : list A) (t : Terminal)
    (line : string) (rest : list string) (k : Z) :
  stdin t = line :: rest -> int line = Some k ->
  (Z.of_nat (length xs) < k \/ k <= - Z.of_nat (length xs))%Z ->
  pick int header item xs t = (inl IndexError, after_menu header item xs rest t).
Proof.
  intros Hstdin Hint Hk. rewrite pick_run, Hstdin, Hint.
  apply getitem_outside. lia.
Qed.

(** X14. A number between 1 and the length of the list selects the item
    with that number on the menu: each of [choose_vehicle], [choose_track]
    and [choose_weather] shows its header, its numbered lines and the
    prompt, takes one line of input, and returns that item. *)
Theorem choose_by_number (int : string -> option Z) (t : Terminal)
    (line : string) (rest : list string) (k : Z) :
  stdin t = line :: rest -> int line = Some k -> (1 <= k)%Z ->
  (forall (vehicles : list Vehicle.t) (v : Vehicle.t),
     vehicles !! Z.to_nat (k - 1) = Some v ->
     choose_vehicle int vehicles t =
       (inr v, after_menu "Select your vehicle:" VehicleItem vehicles rest t)) /\
  (forall (tracks : list Track.t) (tr : Track.t),
     tracks !! Z.to_nat (k - 1) = Some tr ->
     choose_track int tracks t =
       (inr tr, after_menu "Select a track:" TrackItem tracks rest t)) /\
  (forall condition : string,
     ["clear"; "rain"; "storm"] !! Z.to_nat (k - 1) = Some condition ->
     choose_weather int t =
       (inr (Weather.mk condition),
        after_menu "Select weather condition:" ConditionItem
          ["clear"; "rain"; "storm"] rest t)).
Proof.
  intros Hstdin Hint Hk. split; [ | split ].
  - intros vehicles v Hv. rewrite choose_vehicle_pick. by eapply pick_valid.
  - intros tracks tr Htr. rewrite choose_track_pick. by eapply pick_valid.
  - intros condition Hc. rewrite choose_weather_pick.
    by rewrite (pick_valid int _ _ _ t line rest k condition).
Qed.

Lemma choose_by_number_witness :
  choose_vehicle decimal_int default_vehicles
      (mkTerminal (fun _ => 0) 0 ["3"; "1"] []) =
    (inr (Vehicle.mk "Gravel Master" 150 0.85 0.9),
     after_menu "Select your vehicle:" VehicleItem default_vehicles ["1"]
       (mkTerminal (fun _ => 0) 0 ["3"; "1"] [])) /\
  choose_weather decimal_int (mkTerminal (fun _ => 0) 0 ["2"] []) =
    (inr (Weather.mk "rain"),
     after_menu "Select weather condition:" ConditionItem ["clear"; "rain"; "storm"] []
       (mkTerminal (fun _ => 0) 0 ["2"] [])).
Proof.
  split.
  - apply (proj1 (choose_by_number decimal_int
                    (mkTerminal (fun _ => 0) 0 ["3"; "1"] []) "3" ["1"] 3
                    eq_refl eq_refl ltac:(lia))).
    reflexivity.
  - apply (proj2 (proj2 (choose_by_number decimal_int
                           (mkTerminal (fun _ => 0) 0 ["2"] []) "2" [] 2
                           eq_refl eq_refl ltac:(lia)))).
    reflexivity.
Defined.

(** X15. Zero and small negative numbers are not rejected: they select
    from the end of the list, as Python's negative indices do.  Entering 0
    selects the last item of the menu, -1 the one before it, and so on down
    to one less than minus the length. *)
Theorem choose_wraps_around (int : string -> option Z) (t : Terminal)
    (line : string) (rest : list string) (k : Z) :
  stdin t = line :: rest -> int line = Some k -> (k <= 0)%Z ->
  (forall (vehicles : list Vehicle.t) (v : Vehicle.t),
     (- Z.of_nat (length vehicles) < k)%Z ->
     vehicles !! Z.to_nat (Z.of_nat (length vehicles) + k - 1) = Some v ->
     choose_vehicle int vehicles t =
       (inr v, after_menu "Select your vehicle:" VehicleItem vehicles rest t)) /\
  (forall (tracks : list Track.t) (tr : Track.t),
     (- Z.of_nat (length tracks) < k)%Z ->
     tracks !! Z.to_nat (Z.of_nat (length tracks) + k - 1) = Some tr ->
     choose_track int tracks t =
       (inr tr, after_menu "Select a track:" TrackItem tracks rest t)) /\
  (forall condition : string,
     (- 3 < k)%Z ->
     ["clear"; "rain"; "storm"] !! Z.to_nat (3 + k - 1) = Some condition ->
     choose_weather int t =
       (inr (Weather.mk condition),
        after_menu "Select weather condition:" ConditionItem
          ["clear"; "rain"; "storm"] rest t)).
Proof.
  intros Hstdin Hint Hk. split; [ | split ].
  - intros vehicles v Hlo Hv. rewrite choose_vehicle_pick.
    eapply pick_from_end; [ done | done | lia | done ].
  - intros tracks tr Hlo Htr. rewrite choose_track_pick.
    eapply pick_from_end; [ done | done | lia | done ].
  - intros condition Hlo Hc. rewrite choose_weather_pick.
    rewrite (pick_from_end int _ _ _ t line rest k condition); try done.
Qed.

Lemma choose_wraps_around_witness :
  choose_vehicle decimal_int default_vehicles (mkTerminal (fun _ => 0) 0 ["0"] []) =
    (inr (Vehicle.mk "Rock Hopper" 135 0.92 0.83),
     after_menu "Select your vehicle:" VehicleItem default_vehicles []
       (mkTerminal (fun _ => 0) 0 ["0"] [])) /\
  choose_weather decimal_int (mkTerminal (fun _ => 0) 0 ["-1"] []) =
    (inr (Weather.mk "rain"),
     after_menu "Select weather condition:" ConditionItem ["clear"; "rain"; "storm"] []
       (mkTerminal (fun _ => 0) 0 ["-1"] [])).
Proof.
  split.
  - apply (proj1 (choose_wraps_around decimal_int
                    (mkTerminal (fun _ => 0) 0 ["0"] []) "0" [] 0
                    eq_refl eq_refl ltac:(lia))).
    + simpl. lia.
    + reflexivity.
  - apply (proj2 (proj2 (choose_wraps_around decimal_int
                           (mkTerminal (fun _ => 0) 0 ["-1"] []) "-1" [] (-1)
                           eq_refl eq_refl ltac:(lia)))).
    + lia.
    + reflexivity.
Defined.

(** X16. A number beyond the length of the list, or at or below minus the
    length, raises [IndexError], after the menu was shown and the line was
    taken; on an empty list every number does. *)
Theorem choose_out_of_range (int : string -> option Z) (t : Terminal)
    (line : string) (rest : list string) (k : Z) :
  stdin t = line :: rest -> int line = Some k ->
  (forall vehicles : list Vehicle.t,
     (Z.of_nat (length vehicles) < k \/ k <= - Z.of_nat (length vehicles))%Z ->
     choose_vehicle int vehicles t =
       (inl IndexError, after_menu "Select your vehicle:" VehicleItem vehicles rest t)) /\
  (forall tracks : list Track.t,
     (Z.of_nat (length tracks) < k \/ k <= - Z.of_nat (length tracks))%Z ->
     choose_track int tracks t =
       (inl IndexError, after_menu "Select a track:" TrackItem tracks rest t)) /\
  ((3 < k \/ k <= - 3)%Z ->
   choose_weather int t =
     (inl IndexError,
      after_menu "Select weather condition:" ConditionItem
        ["clear"; "rain"; "storm"] rest t)).
Proof.
  intros Hstdin Hint. split; [ | split ].
  - intros vehicles Hk. rewrite choose_vehicle_pick. by eapply pick_outside.
  - intros tracks Hk. rewrite choose_track_pick. by eapply pick_outside.
  - intros Hk. rewrite choose_weather_pick.
    by rewrite (pick_outside int _ _ _ t line rest k).
Qed.

Lemma choose_out_of_range_witness :
  choose_vehicle decimal_int default_vehicles (mkTerminal (fun _ => 0) 0 ["6"] []) =
    (inl IndexError,
     after_menu "Select your vehicle:" VehicleItem default_vehicles []
       (mkTerminal (fun _ => 0) 0 ["6"] [])) /\
  choose_track decimal_int [] (mkTerminal (fun _ => 0) 0 ["1"] []) =
    (inl IndexError,
     after_menu "Select a track:" TrackItem [] []
       (mkTerminal (fun _ => 0) 0 ["1"] [])) /\
  choose_weather decimal_int (mkTerminal (fun _ => 0) 0 ["-3"] []) =
    (inl IndexError,
     after_menu "Select weather condition:" ConditionItem ["clear"; "rain"; "storm"] []
       (mkTerminal (fun _ => 0) 0 ["-3"] [])).
Proof.
  split; [ | split ].
  - apply (proj1 (choose_out_of_range decimal_int
                    (mkTerminal (fun _ => 0) 0 ["6"] []) "6" [] 6 eq_refl eq_refl)).
    simpl. lia.
  - apply (proj1 (proj2 (choose_out_of_range decimal_int
                    (mkTerminal (fun _ => 0) 0 ["1"] []) "1" [] 1 eq_refl eq_refl))).
    simpl. lia.
  - apply (proj2 (proj2 (choose_out_of_range decimal_int
                    (mkTerminal (fun _ => 0) 0 ["-3"] []) "-3" [] (-3) eq_refl eq_refl))).
    lia.
Defined.

Lemma pick_terminal {A : Type} (int : string -> option Z) (header : string)
    (item : Z -> A -> Out) (xs : list A) (t : Terminal) :
  snd (pick int header item xs t) = after_menu header item xs (tail (stdin t)) t.
Proof.
  rewrite pick_run. destruct (stdin t) as [ | line rest ]; [ done | ].
  destruct (int line) as [choice | ]; [ | done ]. apply getitem_terminal.
Qed.

Lemma pick_result {A : Type} (int : string -> option Z) (header : string)
    (item : Z -> A -> Out) (xs : list A) (t : Terminal) (x : A) :
  fst (pick int header item xs t) = inr x ->
  In x xs /\ exists line : string, stdin t = line :: tail (stdin t).
Proof.
  rewrite pick_run. destruct (stdin t) as [ | line rest ]; [ done | ].
  destruct (int line) as [choice | ]; [ | done ].
  intros Hx. split; [ by eapply getitem_In | by exists line ].
Qed.

(** X17. Input that is missing or is not a number is not handled: each
    selection raises [EOFError] when standard input has no line left, and
    [ValueError] when [int] rejects the line, in both cases after the menu
    and the prompt were shown. *)
Theorem choose_bad_input (int : string -> option Z) (t : Terminal)
    (vehicles : list Vehicle.t) (tracks : list Track.t) :
  (stdin t = [] ->
   choose_vehicle int vehicles t =
     (inl EOFError, after_menu "Select your vehicle:" VehicleItem vehicles [] t) /\
   choose_track int tracks t =
     (inl EOFError, after_menu "Select a track:" TrackItem tracks [] t) /\
   choose_weather int t =
     (inl EOFError,
      after_menu "Select weather condition:" ConditionItem
        ["clear"; "rain"; "storm"] [] t)) /\
  (forall (line : string) (rest : list string),
     stdin t = line :: rest -> int line = None ->
     choose_vehicle int vehicles t =
       (inl ValueError, after_menu "Select your vehicle:" VehicleItem vehicles rest t) /\
     choose_track int tracks t =
       (inl ValueError, after_menu "Select a track:" TrackItem tracks rest t) /\
     choose_weather int t =
       (inl ValueError,
        after_menu "Select weather condition:" ConditionItem
          ["clear"; "rain"; "storm"] rest t)).
Proof.
  split.
  - intros Hstdin.
    rewrite choose_vehicle_pick, choose_track_pick, choose_weather_pick.
    by rewrite !pick_run, Hstdin.
  - intros line rest Hstdin Hint.
    rewrite choose_vehicle_pick, choose_track_pick, choose_weather_pick.
    by rewrite !pick_run, Hstdin, Hint.
Qed.

Lemma choose_bad_input_witness :
  choose_vehicle decimal_int default_vehicles (mkTerminal (fun _ => 0) 0 [] []) =
    (inl EOFError,
     after_menu "Select your vehicle:" VehicleItem default_vehicles []
       (mkTerminal (fun _ => 0) 0 [] [])) /\
  choose_weather decimal_int (mkTerminal (fun _ => 0) 0 ["rain"; "2"] []) =
    (inl ValueError,
     after_menu "Select weather condition:" ConditionItem ["clear"; "rain"; "storm"] ["2"]
       (mkTerminal (fun _ => 0) 0 ["rain"; "2"] [])).
Proof.
  split.
  - apply (proj1 (choose_bad_input decimal_int (mkTerminal (fun _ => 0) 0 [] [])
                    default_vehicles default_tracks)).
    reflexivity.
  - apply (proj2 (choose_bad_input decimal_int
                    (mkTerminal (fun _ => 0) 0 ["rain"; "2"] [])
                    default_vehicles default_tracks) "rain" ["2"]).
    + reflexivity.
    + reflexivity.
Defined.

(** X18. A selection returns nothing but what is on its menu: the vehicle
    and the track returned are items of the list passed in, and the weather
    returned has one of the three conditions of the table [WEATHER_EFFECT],
    so the default of [traction_modifier] is never used for a weather that
    was chosen from the menu. *)
Theorem choose_returns_listed (int : string -> option Z) (t : Terminal) :
  (forall (vehicles : list Vehicle.t) (v : Vehicle.t),
     fst (choose_vehicle int vehicles t) = inr v -> In v vehicles) /\
  (forall (tracks : list Track.t) (tr : Track.t),
     fst (choose_track int tracks t) = inr tr -> In tr tracks) /\
  (forall we : Weather.t,
     fst (choose_weather int t) = inr we ->
     In (Weather.condition we) ["clear"; "rain"; "storm"] /\
     Weather.WEATHER_EFFECT !! Weather.condition we = Some (Weather.traction_modifier we)).
Proof.
  split; [ | split ].
  - intros vehicles v Hv. rewrite choose_vehicle_pick in Hv.
    by apply pick_result in Hv as [Hin _].
  - intros tracks tr Htr. rewrite choose_track_pick in Htr.
    by apply pick_result in Htr as [Hin _].
  - intros we Hwe. rewrite choose_weather_pick in Hwe.
    destruct (pick int _ ConditionItem _ t) as [[e | condition] t'] eqn:Hpick;
      [ done | ].
    injection Hwe as <-.
    assert (Hin : In condition ["clear"; "rain"; "storm"]).
    { eapply pick_result. by rewrite Hpick. }
    split; [ exact Hin | ].
    simpl in Hin. by destruct Hin as [<- | [<- | [<- | []]]].
Qed.

Lemma choose_returns_listed_witness :
  In (Vehicle.mk "Mud Crusher" 130 0.95 0.85) default_vehicles.
Proof.
  apply (proj1 (choose_returns_listed decimal_int
                  (mkTerminal (fun _ => 0) 0 ["2"] [])) default_vehicles).
  reflexivity.
Defined.

(** ** [main] *)

Lemma run_random (self : Race.t) (vehicle : Vehicle.t) (w : World) :
  random (snd (Race.run self vehicle w)) = random w.
Proof.
  rewrite run_unfold; cbn [snd random].
  by destruct (run_laps_spec self vehicle (range 1 (Race.laps self + 1)) [] w)
    as (_ & Hrandom & _).
Qed.

Lemma lift_run (self : Race.t) (vehicle : Vehicle.t) (t : Terminal) :
  lift (Race.run self vehicle) t =
    let r := Race.run self vehicle (mkWorld (generator t) (consumed t) []) in
    (inr (fst r),
     mkTerminal (generator t) (consumed t + Z.to_nat (Race.laps self)) (stdin t)
       (screen t ++ map RaceLine (stdout (snd r)))).
Proof.
  unfold lift.
  pose proof (run_random self vehicle (mkWorld (generator t) (consumed t) [])) as Hrandom.
  pose proof (run_draws self vehicle (mkWorld (generator t) (consumed t) [])) as Hdrawn.
  destruct (Race.run self vehicle (mkWorld (generator t) (consumed t) [])) as [r w'].
  cbn [fst snd random drawn] in *. by rewrite Hrandom, Hdrawn.
Qed.

Lemma leaderboard_items (track : Track.t) (weather : Weather.t) (laps : Z)
    (vehicle : Vehicle.t) (w : World) :
  sorted_by_total
    (map_to_list
       (Race.leaderboard
          (snd (fst (Race.run (Race.__init__ track weather laps) vehicle w))))) =
    [(Vehicle.name vehicle,
      sum (fst (fst (Race.run (Race.__init__ track weather laps) vehicle w))))].
Proof.
  rewrite run_leaderboard; cbn [Race.__init__ Race.leaderboard].
  by rewrite insert_empty, map_to_list_singleton.
Qed.

(** The terminal after the question for the number of laps, asked in the
    terminal [t]. *)
Lemma input_run (prompt : string) (t : Terminal) :
  input prompt t =
    (match stdin t with
     | [] => inl EOFError
     | line :: _ => inr line
     end,
     mkTerminal (generator t) (consumed t) (tail (stdin t)) (screen t ++ [Text prompt])).
Proof. unfold input. by destruct (stdin t). Qed.

(** [main], stage by stage. *)
Lemma main_run (int : string -> option Z) (t : Terminal) :
  let t1 := after_menu "Select your vehicle:" VehicleItem default_vehicles
              (tail (stdin t)) t in
  let t2 := after_menu "Select a track:" TrackItem default_tracks
              (tail (stdin t1)) t1 in
  let t3 := after_menu "Select weather condition:" ConditionItem
              ["clear"; "rain"; "storm"] (tail (stdin t2)) t2 in
  let t4 := mkTerminal (generator t) (consumed t) (tail (stdin t3))
              (screen t3 ++ [Text "Number of laps: "]) in
  main int t =
    match fst (choose_vehicle int default_vehicles t) with
    | inl e => (inl e, t1)
    | inr vehicle =>
        match fst (choose_track int default_tracks t1) with
        | inl e => (inl e, t2)
        | inr track =>
            match fst (choose_weather int t2) with
            | inl e => (inl e, t3)
            | inr weather =>
                match stdin t3 with
                | [] => (inl EOFError, t4)
                | line :: _ =>
                    match int line with
                    | None => (inl ValueError, t4)
                    | Some laps =>
                        let r := Race.run (Race.__init__ track weather laps) vehicle
                                   (mkWorld (generator t) (consumed t) []) in
                        (inr tt,
                         mkTerminal (generator t) (consumed t + Z.to_nat laps)
                           (stdin t4)
                           (screen t4 ++ map RaceLine (stdout (snd r))
                              ++ [Text "Leaderboard:";
                                  LeaderboardItem (Vehicle.name vehicle)
                                    (sum (fst (fst r)))]))
                    end
                end
            end
        end
    end.
Proof.
  intros t1 t2 t3 t4. unfold main.
  assert (Hsnd1 : snd (choose_vehicle int default_vehicles t) = t1)
    by (rewrite choose_vehicle_pick; apply pick_terminal).
  assert (Hsnd2 : snd (choose_track int default_tracks t1) = t2)
    by (rewrite choose_track_pick; apply pick_terminal).
  assert (Hsnd3 : snd (choose_weather int t2) = t3).
  { rewrite choose_weather_pick.
    pose proof (pick_terminal int "Select weather condition:" ConditionItem
                  ["clear"; "rain"; "storm"] t2) as Hpick.
    by destruct (pick int _ ConditionItem _ t2) as [[e | condition] t']. }
  rewrite io_bind_run, Hsnd1.
  destruct (fst (choose_vehicle int default_vehicles t)) as [e | vehicle]; [ done | ].
  rewrite io_bind_run, Hsnd2.
  destruct (fst (choose_track int default_tracks t1)) as [e | track]; [ done | ].
  rewrite io_bind_run, Hsnd3.
  destruct (fst (choose_weather int t2)) as [e | weather]; [ done | ].
  rewrite io_bind_run, input_run; cbn [fst snd]. fold t4.
  destruct (stdin t3) as [ | line rest ] eqn:Hstdin3; [ done | ].
  rewrite io_bind_run. unfold int_of_input.
  destruct (int line) as [laps | ]; [ | done ].
  cbn [io_ret fst snd]. rewrite io_bind_run, lift_run. cbn [fst snd].
  rewrite io_bind_run. cbn [show fst snd generator consumed stdin screen].
  rewrite leaderboard_items. cbn [show_each]. unfold io_bind, show, io_ret.
  cbn [generator consumed stdin screen fst snd].
  change (generator t3) with (generator t). change (consumed t3) with (consumed t).
  unfold t4; cbn [stdin screen tail Race.laps Race.__init__].
  by rewrite <- !app_assoc.
Qed.

(** X19. A complete session.  When the four lines of input are numbers, the
    first three between 1 and the length of their menus, [main] ends without
    an exception after it has shown the three menus and the question for the
    laps, run the race of the selected vehicle on the selected track under
    the selected weather on a new [Race], reading the generator once per
    lap, and shown a leaderboard of exactly one line: the name of the
    vehicle with the sum of its lap times.  Input beyond the four lines is
    left unread. *)
Theorem main_session (int : string -> option Z) (t : Terminal)
    (l1 l2 l3 l4 : string) (rest : list string) (kv kt kw laps : Z)
    (vehicle : Vehicle.t) (track : Track.t) (condition : string) :
  stdin t = l1 :: l2 :: l3 :: l4 :: rest ->
  int l1 = Some kv -> int l2 = Some kt -> int l3 = Some kw -> int l4 = Some laps ->
  (1 <= kv)%Z -> default_vehicles !! Z.to_nat (kv - 1) = Some vehicle ->
  (1 <= kt)%Z -> default_tracks !! Z.to_nat (kt - 1) = Some track ->
  (1 <= kw)%Z -> ["clear"; "rain"; "storm"] !! Z.to_nat (kw - 1) = Some condition ->
  let r := Race.run (Race.__init__ track (Weather.mk condition) laps) vehicle
             (mkWorld (generator t) (consumed t) []) in
  main int t =
    (inr tt,
     mkTerminal (generator t) (consumed t + Z.to_nat laps) rest
       (screen t
          ++ menu_screen "Select your vehicle:" VehicleItem default_vehicles
          ++ menu_screen "Select a track:" TrackItem default_tracks
          ++ menu_screen "Select weather condition:" ConditionItem
               ["clear"; "rain"; "storm"]
          ++ [Text "Number of laps: "]
          ++ map RaceLine (stdout (snd r))
          ++ [Text "Leaderboard:";
              LeaderboardItem (Vehicle.name vehicle) (sum (fst (fst r)))])).
Proof.
  intros Hstdin H1 H2 H3 H4 Hkv Hvehicle Hkt Htrack Hkw Hcondition r.
  rewrite main_run; cbn zeta.
  rewrite choose_vehicle_pick, choose_track_pick, choose_weather_pick.
  rewrite (pick_valid int _ _ _ t l1 (l2 :: l3 :: l4 :: rest) kv vehicle) by done.
  rewrite Hstdin; cbn [fst snd tail after_menu stdin].
  rewrite (pick_valid int _ _ _ _ l2 (l3 :: l4 :: rest) kt track) by done.
  cbn [fst snd tail after_menu stdin].
  rewrite (pick_valid int _ _ _ _ l3 (l4 :: rest) kw condition) by done.
  cbn [fst snd tail after_menu stdin generator consumed screen]. rewrite H4.
  cbn [tail]. by rewrite <- !app_assoc.
Qed.

Lemma main_session_witness :
  fst (main decimal_int (mkTerminal (fun _ => 0.5) 0 ["1"; "2"; "3"; "2"; "later"] []))
    = inr tt /\
  stdin (snd (main decimal_int
                (mkTerminal (fun _ => 0.5) 0 ["1"; "2"; "3"; "2"; "later"] [])))
    = ["later"] /\
  consumed (snd (main decimal_int
                   (mkTerminal (fun _ => 0.5) 0 ["1"; "2"; "3"; "2"; "later"] [])))
    = 2%nat.
Proof.
  rewrite (main_session decimal_int
             (mkTerminal (fun _ => 0.5) 0 ["1"; "2"; "3"; "2"; "later"] [])
             "1" "2" "3" "2" ["later"] 1 2 3 2
             (Vehicle.mk "Dust Rider" 140 0.9 0.8)
             (Track.mk "Gravel Pass" "gravel" 4.5 ["rock"; "ditch"]) "storm"
             eq_refl eq_refl eq_refl eq_refl eq_refl
             ltac:(lia) eq_refl ltac:(lia) eq_refl ltac:(lia) eq_refl).
  repeat split.
Defined.

Lemma zip_with_no_result {A : Type} (item : Z -> A -> Out) :
  (forall (idx : Z) (x : A), ~ shows_result (item idx x)) ->
  forall (numbers : list Z) (xs : list A),
    Forall (fun o => ~ shows_result o) (zip_with item numbers xs).
Proof.
  intros Hitem numbers.
  induction numbers as [ | idx numbers IH ]; intros [ | x xs ]; simpl;
    constructor; auto.
Qed.

Lemma menu_screen_no_result {A : Type} (header : string) (item : Z -> A -> Out)
    (xs : list A) :
  (forall (idx : Z) (x : A), ~ shows_result (item idx x)) ->
  Forall (fun o => ~ shows_result o) (menu_screen header item xs).
Proof.
  intros Hitem. unfold menu_screen, menu.
  constructor; [ simpl; tauto | ].
  apply Forall_app. split; [ by apply zip_with_no_result | ].
  constructor; [ simpl; tauto | constructor ].
Qed.

(** X20. When [main] ends with an exception, the race was not run: the
    random generator was not read, and the screen shows, after what it
    showed before, nothing of a race and no leaderboard line (only menus
    and prompts).  So an exception can only come from the four inputs. *)
Theorem main_failure_before_race (int : string -> option Z) (t : Terminal) (e : Exn) :
  fst (main int t) = inl e ->
  generator (snd (main int t)) = generator t /\
  consumed (snd (main int t)) = consumed t /\
  exists shown : list Out,
    screen (snd (main int t)) = screen t ++ shown /\
    Forall (fun o => ~ shows_result o) shown.
Proof.
  pose proof (menu_screen_no_result "Select your vehicle:" VehicleItem default_vehicles
                ltac:(intros ? ? [])) as Hmenu1.
  pose proof (menu_screen_no_result "Select a track:" TrackItem default_tracks
                ltac:(intros ? ? [])) as Hmenu2.
  pose proof (menu_screen_no_result "Select weather condition:" ConditionItem
                ["clear"; "rain"; "storm"] ltac:(intros ? ? [])) as Hmenu3.
  rewrite main_run; cbn zeta.
  destruct (fst (choose_vehicle int default_vehicles t)) as [e1 | vehicle].
  { intros _. repeat split. eexists. cbn [fst snd after_menu screen].
    split; [ reflexivity | done ]. }
  destruct (fst (choose_track int default_tracks _)) as [e2 | track].
  { intros _. repeat split. eexists. cbn [fst snd after_menu screen].
    rewrite <- app_assoc. split; [ reflexivity | ]. by apply Forall_app. }
  destruct (fst (choose_weather int _)) as [e3 | weather].
  { intros _. repeat split. eexists. cbn [fst snd after_menu screen].
    rewrite <- !app_assoc. split; [ reflexivity | ]. by rewrite !Forall_app. }
  assert (Hlaps : Forall (fun o => ~ shows_result o) [Text "Number of laps: "])
    by (constructor; [ simpl; tauto | constructor ]).
  destruct (stdin _) as [ | line rest ].
  { intros _. repeat split. eexists. cbn [fst snd after_menu screen].
    rewrite <- !app_assoc. split; [ reflexivity | ]. by rewrite !Forall_app. }
  destruct (int line) as [laps | ]; [ done | ].
  intros _. repeat split. eexists. cbn [fst snd after_menu screen].
  rewrite <- !app_assoc. split; [ reflexivity | ]. by rewrite !Forall_app.
Qed.

Lemma main_failure_before_race_witness :
  consumed (snd (main decimal_int (mkTerminal (fun _ => 0.5) 7 ["2"; "9"; "1"; "3"] [])))
    = 7%nat.
Proof.
  apply (main_failure_before_race decimal_int
           (mkTerminal (fun _ => 0.5) 7 ["2"; "9"; "1"; "3"] []) IndexError).
  reflexivity.
Defined.

(** * The program in binary64 *)

Set Warnings "-inexact-float".
Local Open Scope float_scope.

(** ** The denominator is never below 1 and never zero *)


Lemma b64_max_nonzero (a : float) : (B64.py_max_1 a =? 0) = false.
Proof.
  unfold B64.py_max_1. destruct (a <? 1) eqn:Ha; [ reflexivity | ].
  rewrite FloatAxioms.ltb_spec in Ha. rewrite FloatAxioms.eqb_spec.
  destruct (Prim2SF a) as [s | s | | s m e]; try reflexivity;
    destruct s; try reflexivity; vm_compute in Ha; discriminate.
Qed.



(** ** [_lap_time] and [run] return *)

Lemma b64_lap_time_run (self : B64.Race.t) (vehicle : B64.Vehicle.t) (w : B64.World) :
  B64.Race._lap_time self vehicle w =
    Some (B64.lap_of self vehicle (B64.uniform_at w 0),
          B64.mkWorld (B64.random w) (S (B64.drawn w)) (B64.stdout w)).
Proof.
  cbv [B64.Race._lap_time B64.bind B64.random_uniform B64.random_random
       B64.ret B64.lift_option B64.truediv B64.lap_of B64.uniform_at
       B64.denominator].
  by rewrite Nat.add_0_r, b64_max_nonzero.
Qed.

Lemma b64_uniform_at_next (w : B64.World) (out : list B64.Line) (i : nat) :
  B64.uniform_at (B64.mkWorld (B64.random w) (S (B64.drawn w)) out) i =
    B64.uniform_at w (S i).
Proof. unfold B64.uniform_at; simpl. do 3 f_equal. lia. Qed.

Lemma b64_run_laps_spec (self : B64.Race.t) (vehicle : B64.Vehicle.t)
    (lap_numbers : list Z) :
  forall (times : list float) (w : B64.World),
    let laps := map (fun i => B64.lap_of self vehicle (B64.uniform_at w i))
                  (seq 0 (length lap_numbers)) in
    B64.Race.run_laps self vehicle lap_numbers times w =
      Some (times ++ laps,
            B64.mkWorld (B64.random w) (B64.drawn w + length lap_numbers)
              (B64.stdout w ++ zip_with B64.LapLine lap_numbers laps)).
Proof.
  induction lap_numbers as [ | lap rest IH ]; intros times w.
  - destruct w; simpl. unfold B64.ret. by rewrite !app_nil_r, Nat.add_0_r.
  - cbn [B64.Race.run_laps]. unfold B64.bind at 1. rewrite b64_lap_time_run.
    unfold B64.bind at 1, B64.print at 1. cbn [B64.random B64.drawn B64.stdout].
    rewrite IH. cbn [B64.random B64.drawn B64.stdout length seq map zip_with].
    rewrite <- seq_shift, map_map.
    rewrite (map_ext
               (fun i => B64.lap_of self vehicle
                           (B64.uniform_at
                              (B64.mkWorld (B64.random w) (S (B64.drawn w))
                                 (B64.stdout w ++
                                    [B64.LapLine lap
                                       (B64.lap_of self vehicle (B64.uniform_at w 0))]))
                              i))
               (fun i => B64.lap_of self vehicle (B64.uniform_at w (S i))))
      by (intros i; by rewrite b64_uniform_at_next).
    rewrite <- !app_assoc. cbn [app]. do 3 f_equal. lia.
Qed.

(** What [run] returns in binary64: it never raises, and the [i]-th lap
    time is the one of the [i]-th draw. *)
Lemma b64_run_spec (self : B64.Race.t) (vehicle : B64.Vehicle.t) (w : B64.World) :
  let times := map (fun i => B64.lap_of self vehicle (B64.uniform_at w i))
                 (seq 0 (Z.to_nat (B64.Race.laps self))) in
  B64.Race.run self vehicle w =
    Some ((times,
           B64.Race.set_leaderboard self (B64.Vehicle.name vehicle) (B64.sum times)),
          B64.mkWorld (B64.random w) (B64.drawn w + Z.to_nat (B64.Race.laps self))
            ((B64.stdout w
                ++ zip_with B64.LapLine (range 1 (B64.Race.laps self + 1)) times)
               ++ [B64.TotalLine (B64.sum times)])).
Proof.
  unfold B64.Race.run, B64.bind at 1. rewrite b64_run_laps_spec.
  rewrite range_length.
  replace (Z.to_nat (B64.Race.laps self + 1 - 1)) with (Z.to_nat (B64.Race.laps self))
    by lia.
  reflexivity.
Qed.

(** ** The scenario in binary64 *)

(** Zero times a draw of [uniform(0.5, 1.5)] is zero. *)
Lemma b64_zero_times_draw (u : float) :
  (0.5 <=? u) && (u <=? 1.5) = true -> 0 * u = 0.
Proof.
  intros Hu. apply andb_prop in Hu as [Hlo Hhi].
  rewrite FloatAxioms.leb_spec in Hlo, Hhi.
  apply Prim2SF_inj. rewrite FloatAxioms.mul_spec.
  destruct (Prim2SF u) as [s | s | | s m e].
  - destruct s; vm_compute in Hlo; discriminate.
  - destruct s; [ vm_compute in Hlo | vm_compute in Hhi ]; discriminate.
  - vm_compute in Hlo; discriminate.
  - destruct s; [ vm_compute in Hlo; discriminate | reflexivity ].
Qed.

Lemma b64_scenario_lap (u : float) :
  (0.5 <=? u) && (u <=? 1.5) = true ->
  B64.lap_of B64.clear_race B64.test_vehicle u = 0x1.2fb515e469ca9p-1.
Proof.
  intros Hu. unfold B64.lap_of, B64.denominator.
  change (B64.len (B64.Track.obstacles (B64.Race.track B64.clear_race))) with 0.
  rewrite (b64_zero_times_draw u Hu). by vm_compute.
Qed.

(** C2, amended. In the scenario, for every draw of [uniform(0.5, 1.5)],
    [run] returns one lap time, the binary64 number 0x1.2fb515e469ca9p-1
    (0.5931784478497281), and the leaderboard entry of "Test Car" is this
    number.  It equals [(1.0 / (140 * 0.85 * 0.85 * 1.0)) * 60] up to
    rounding: the value of that expression is the binary64 number next
    above it.  It is 0.593 minutes when written with three decimals. *)
Theorem scenario_lap_time_b64 (w : B64.World) :
  (0.5 <=? B64.uniform_at w 0) && (B64.uniform_at w 0 <=? 1.5) = true ->
  let lap_time := 0x1.2fb515e469ca9p-1 in
  (exists (race' : B64.Race.t) (w' : B64.World),
     B64.Race.run B64.clear_race B64.test_vehicle w = Some (([lap_time], race'), w') /\
     B64.Race.leaderboard race' !! "Test Car" = Some lap_time) /\
  next_up lap_time = B64.scenario_expression /\
  (0.5925 <? lap_time) && (lap_time <? 0.5935) = true.
Proof.
  intros Hu lap_time. split; [ | split; by vm_compute ].
  rewrite b64_run_spec.
  change (Z.to_nat (B64.Race.laps B64.clear_race)) with 1%nat.
  cbn [seq map]. rewrite (b64_scenario_lap _ Hu). fold lap_time.
  do 2 eexists. split; [ reflexivity | ].
  unfold B64.Race.set_leaderboard; cbn [B64.Race.leaderboard B64.Vehicle.name B64.test_vehicle].
  rewrite lookup_insert_eq. reflexivity.
Qed.

Lemma scenario_lap_time_b64_witness :
  exists (race' : B64.Race.t) (w' : B64.World),
    B64.Race.run B64.clear_race B64.test_vehicle (B64.mkWorld (fun _ => 0.25) 0 []) =
      Some (([0x1.2fb515e469ca9p-1], race'), w') /\
    B64.Race.leaderboard race' !! "Test Car" = Some 0x1.2fb515e469ca9p-1.
Proof.
  apply (scenario_lap_time_b64 (B64.mkWorld (fun _ => 0.25) 0 [])).
  vm_compute. reflexivity.
Defined.

(** ** The sign of a quotient and of a product *)









(** ** The lap times of [run] in binary64 *)


(** On a track of the smallest positive length, 2^-1074, the lap time
    underflows to zero. *)
Lemma run_lap_time_underflows :
  exists (race' : B64.Race.t) (w' : B64.World),
    B64.Race.run
      (B64.Race.__init__ (B64.Track.mk "Test Track" "gravel" 0x1p-1074 [])
         (B64.Weather.mk "clear") 1)
      B64.test_vehicle (B64.mkWorld (fun _ => 0.5) 0 [])
      = Some (([0], race'), w').
Proof.
  rewrite b64_run_spec. do 2 eexists. reflexivity.
Qed.


